(** * demo-learn-embedding: the control pipeline of the Franka demos

    A shallow embedding of the three demo drivers

      - [src/sim_os.cpp]                  (operation-space controller),
      - [src/simulation/id_modelbased.cpp] (QP inverse dynamics, nC = 7),
      - [tmp/id_modelfree.cpp]            (QP inverse kinematics, nC = 0),

    and the properties of their task dynamics, controllers and main loops.

    Scalars.  The drivers compute with [double]; here a scalar is a rational
    in lowest terms ([Qc]), so every operation is exact and equality is
    Leibniz equality.  Rounding, NaN and infinities are outside the model.

    Collaborators.  The rigid-body model, the physics engine, the remote
    requester, the QP solver and the file system are libraries the drivers
    link against; they enter as interfaces ([Class]es) whose operations the
    drivers call. *)

From Stdlib Require Import String Ascii DecimalString.
From Stdlib Require Import List ZArith QArith Qround Qcanon Bool Lia Lqa Sorted.
Import ListNotations.

Set Warnings "-register-all".

Open Scope Qc_scope.

(** A [double] literal [n/d]. *)
Definition dbl (n : Z) (d : positive) : Qc := Q2Qc (n # d).

(* ================================================================== *)
(** ** Dense vectors and matrices (the part of Eigen the drivers use) *)
(* ================================================================== *)

Module Eigen.

Definition Vec := list Qc.
(** A matrix is the list of its rows. *)
Definition Mat := list Vec.

Fixpoint zip_with (f : Qc -> Qc -> Qc) (a b : Vec) : Vec :=
  match a, b with
  | x :: a', y :: b' => f x y :: zip_with f a' b'
  | _, _ => []
  end.

Definition Zero (n : nat) : Vec := repeat 0 n.
Definition vadd : Vec -> Vec -> Vec := zip_with Qcplus.
Definition vsub : Vec -> Vec -> Vec := zip_with Qcminus.
Definition scale (k : Qc) (v : Vec) : Vec := map (Qcmult k) v.
Definition sum (v : Vec) : Qc := fold_right Qcplus 0 v.
Definition dot (a b : Vec) : Qc := sum (zip_with Qcmult a b).

(** [M * v]. *)
Definition mv (M : Mat) (v : Vec) : Vec := map (fun r => dot r v) M.

(** [M.transpose()] for a matrix with [cols] columns. *)
Fixpoint transpose (cols : nat) (M : Mat) : Mat :=
  match M with
  | [] => repeat [] cols
  | r :: M' => map (fun p => fst p :: snd p) (combine r (transpose cols M'))
  end.

(** A diagonal matrix, [Identity(n, n)] and [k * M]. *)
Fixpoint diag_from (pre : nat) (v : Vec) : Mat :=
  match v with
  | [] => []
  | x :: v' => (Zero pre ++ x :: Zero (length v')) :: diag_from (S pre) v'
  end.
Definition diagonal (v : Vec) : Mat := diag_from 0 v.
Definition Identity (n : nat) : Mat := diagonal (repeat 1 n).
Definition mscale (k : Qc) (M : Mat) : Mat := map (scale k) M.
Definition MZero (r c : nat) : Mat := repeat (Zero c) r.

(** [v.head(n)], [v.tail(n)], [v.segment(i, n)]. *)
Definition head (n : nat) (v : Vec) : Vec := firstn n v.
Definition tail (n : nat) (v : Vec) : Vec := skipn (length v - n) v.
Definition segment (i n : nat) (v : Vec) : Vec := firstn n (skipn i v).

(** [v.head(n) = rhs] (Eigen requires [rhs] to have [n] coefficients) and
    [v.tail(n).setZero()]. *)
Definition set_head (n : nat) (rhs v : Vec) : Vec := rhs ++ skipn n v.
Definition tail_setZero (n : nat) (v : Vec) : Vec :=
  firstn (length v - n) v ++ Zero n.

(** [M.rowwise() += r]. *)
Definition rowwise_add (M : Mat) (r : Vec) : Mat := map (fun row => vadd row r) M.

Definition squaredNorm (v : Vec) : Qc := dot v v.

(** The test [(a - b).norm() <= eps] for a radius [eps >= 0], decided on
    the squares: the norm is a square root, which no rational computes. *)
Definition within (eps : Qc) (a b : Vec) : bool :=
  Qle_bool (squaredNorm (vsub a b)) (eps * eps).

End Eigen.
Import Eigen.

(* ================================================================== *)
(** ** control_lib: spaces and the feedback block                      *)
(* ================================================================== *)

(** What control_lib fixes and the drivers rely on without stating it. *)
Class ControlLib := {
  (** rotation part of the difference of two poses: the logarithm of
      [R_ref * R^T] as an axis-angle 3-vector *)
  so3_log : Mat -> Mat -> Vec;
  (** the gain matrix of a feedback block of output dimension [d] on which
      neither [setStiffness] nor [setDamping] was called yet *)
  unset_gain : nat -> Mat;
  (** the coefficients of a vector of [n] doubles that was never assigned,
      such as the tangent of a point built from its coordinates only *)
  unset_vec : nat -> Vec;
  (** the rotation of a rotation reference that was never assigned *)
  unset_rot : Mat
}.

Module spatial.

(** [spatial::R<N>]: a point of R^N with its tangent. *)
Module R.
Record t := Build { _x : Vec; _v : Vec }.
Definition of_coords `{ControlLib} (n : nat) (x : Vec) : t :=
  {| _x := x; _v := unset_vec n |}.
Definition set_v (p : t) (v : Vec) : t := {| _x := _x p; _v := v |}.
End R.

(** [spatial::SO<3, true>]: a rotation with its tangent. *)
Module SO.
Record t := Build { _rot : Mat; _v : Vec }.
Definition of_rot `{ControlLib} (r : Mat) : t :=
  {| _rot := r; _v := unset_vec 3 |}.
Definition set_v (p : t) (v : Vec) : t := {| _rot := _rot p; _v := v |}.
End SO.

(** [spatial::SE<3>]: rotation, translation and a 6-vector twist. *)
Module SE.
Record t := Build { _rot : Mat; _trans : Vec; _v : Vec }.
Definition of_parts `{ControlLib} (r : Mat) (p : Vec) : t :=
  {| _rot := r; _trans := p; _v := unset_vec 6 |}.
Definition set_v (p : t) (v : Vec) : t :=
  {| _rot := _rot p; _trans := _trans p; _v := v |}.
End SE.

(** The capabilities a feedback block needs from its space. *)
Class Space (X : Type) := {
  (** [a - b]: the difference of two points, in the tangent space *)
  minus : X -> X -> Vec;
  tangent : X -> Vec
}.

#[export] Instance R_Space : Space R.t :=
  {| minus := fun a b => vsub (R._x a) (R._x b); tangent := R._v |}.

#[export] Instance SO_Space `{ControlLib} : Space SO.t :=
  {| minus := fun a b => so3_log (SO._rot a) (SO._rot b); tangent := SO._v |}.

(** Modelled from the spec: control_lib's difference of two SE(3) poses,
    which is not among the sources; the spec describes it as the
    translation difference followed by the rotation logarithm. *)
#[export] Instance SE_Space `{ControlLib} : Space SE.t :=
  {| minus := fun a b =>
       vsub (SE._trans a) (SE._trans b) ++ so3_log (SE._rot a) (SE._rot b);
     tangent := SE._v |}.

End spatial.
Import spatial.

Module controllers.

(** [controllers::Feedback<Params, Space>]: gains, reference and the
    output [_u] it inherits from [AbstractController]. *)
Section Feedback.
Context {X : Type} `{Space X}.

Record Feedback := BuildFeedback {
  _k : Mat;      (* stiffness *)
  _c : Mat;      (* damping *)
  _xr : X;       (* reference *)
  _u : Vec       (* output *)
}.

Definition setStiffness (K : Mat) (f : Feedback) : Feedback :=
  {| _k := K; _c := _c f; _xr := _xr f; _u := _u f |}.
Definition setDamping (D : Mat) (f : Feedback) : Feedback :=
  {| _k := _k f; _c := D; _xr := _xr f; _u := _u f |}.
Definition setReference (x : X) (f : Feedback) : Feedback :=
  {| _k := _k f; _c := _c f; _xr := x; _u := _u f |}.

(** Modelled from the spec: the feedback law of control_lib's
    [Feedback::update], which is not among the sources.  Following the
    spec's torque formula, [u = K (x* - x) + D (x*.v - x.v)] with [-]
    the difference of the space. *)
Definition law (K D : Mat) (xr x : X) : Vec :=
  vadd (mv K (minus xr x)) (mv D (vsub (tangent xr) (tangent x))).

Definition update (f : Feedback) (x : X) : Feedback :=
  {| _k := _k f; _c := _c f; _xr := _xr f;
     _u := law (_k f) (_c f) (_xr f) x |}.

Definition output (f : Feedback) : Vec := _u f.

(** [f(x)] and [f.action(x)]: update, then read the output. *)
Definition call (f : Feedback) (x : X) : Feedback * Vec :=
  let f' := update f x in (f', output f').

End Feedback.
Arguments Feedback X : clear implicits.

(** A freshly constructed block of output dimension [d]. *)
Definition fresh `{ControlLib} {X : Type} (d : nat) (x0 : X) : Feedback X :=
  {| _k := unset_gain d; _c := unset_gain d; _xr := x0; _u := Zero d |}.

End controllers.

(* ================================================================== *)
(** ** Collaborators of the drivers                                    *)
(* ================================================================== *)

(** [bodies::MultiBody] as the drivers query it through [FrankaModel]: every
    operation is taken at the model's end-effector frame. *)
Class MultiBody := {
  jacobian : Vec -> Mat;
  (** the 6-vector frame pose, already wrapped by [SE3]'s constructor *)
  framePose : Vec -> SE.t;
  frameVelocity : Vec -> Vec -> Vec;
  framePosition : Vec -> Vec;
  gravityVector : Vec -> Vec;
  nonLinearEffects : Vec -> Vec -> Vec;
  positionLower : Vec;
  positionUpper : Vec
}.

(** [std::sqrt] on doubles. *)
Class Libm := { sqrt : Qc -> Qc }.

(** [zmq_stream::Requester]: [request payload n] sends [payload] and blocks
    for a reply asked to hold [n] doubles. *)
Class Requester := { request : Vec -> nat -> Vec }.

(** The files on disk that a [FileManager] writes: rows by path. *)
Definition Disk := string -> list Vec.

Module FileManager.

(** Modelled from the spec: utils_lib's [FileManager::append], which is not
    among the sources; the spec has the log appended, never rewound: the row
    goes after the rows the file already holds. *)
Definition append (file : string) (row : Vec) (disk : Disk) : Disk :=
  fun path => if String.eqb path file then disk path ++ [row] else disk path.

End FileManager.

(** The physics engine and the body it simulates. *)
Class Simulator := {
  World : Type;
  (** [franka->state()] and [franka->velocity()] *)
  state : World -> Vec;
  velocity : World -> Vec;
  (** one physics step, at step index [n], under the joint torques [tau] *)
  integrate : World -> Vec -> nat -> World;
  (** whether the engine goes on (the viewer's window is still open) *)
  proceed : World -> bool
}.

(** Modelled from the spec: beautiful_bullet's [Simulator::step], which is
    not among the sources.  The spec has the controller evaluated inside the
    physics step, on the state sampled before the physics advances, and the
    step reporting a stop request.  [act] is the controller's [action] on
    the controller state [C]. *)
Definition step `{Simulator} {C : Type} (act : C -> Vec -> Vec -> Vec * C)
  (w : World) (c : C) (n : nat) : bool * World * C :=
  let '(tau, c') := act c (state w) (velocity w) in
  let w' := integrate w tau n in
  (proceed w', w', c').

(** [steady_clock]: time points and durations count nanoseconds.  The
    counter is a signed 64-bit integer whose overflow is undefined and
    centuries away; time points are unbounded integers here. *)
Definition time_point := Z.
Definition ms (n : Z) : Z := (n * 1000000)%Z.

(** [size_t(t / dt)]. *)
Definition step_index (t dt : Qc) : nat := Z.to_nat (Qfloor (t / dt)).

(** Why a driver's loop was left: the loop condition [t <= T] failed, the
    engine's step returned false, or the goal test of the loop fired. *)
Inductive Exit := HorizonPassed | EngineStopped | GoalReached.

(** A small error monad for the start-up code, whose library calls throw. *)
Definition bind {A B : Type} (m : option A) (k : A -> option B) : option B :=
  match m with Some a => k a | None => None end.
Notation "x <- m ;; k" := (bind m (fun x => k))
  (at level 61, m at next level, right associativity).

(** yaml-cpp nodes, as far as the drivers read them. *)
Module YAML.

Inductive Node :=
| Null
| Scalar (x : Qc)
| Sequence (items : list Node)
| Map (entries : list (string * Node)).

Fixpoint find (key : string) (entries : list (string * Node)) : option Node :=
  match entries with
  | [] => None
  | (k, v) :: rest => if String.eqb k key then Some v else find key rest
  end.

(** [node[key]]: the child, or a node without value. *)
Definition get (node : Node) (key : string) : Node :=
  match node with
  | Map entries => match find key entries with Some v => v | None => Null end
  | _ => Null
  end.

Definition as_double (node : Node) : option Qc :=
  match node with Scalar x => Some x | _ => None end.

Fixpoint all_doubles (items : list Node) : option (list Qc) :=
  match items with
  | [] => Some []
  | n :: rest => x <- as_double n ;; xs <- all_doubles rest ;; Some (x :: xs)
  end.

(** [node.as<std::vector<double>>()]; [None] where yaml-cpp throws. *)
Definition as_vector (node : Node) : option (list Qc) :=
  match node with Sequence items => all_doubles items | _ => None end.

End YAML.

(** The files the drivers read at start-up; [None] where reading fails. *)
Class FileSystem := {
  LoadFile : string -> option YAML.Node;
  read : string -> option Mat
}.

(** [std::to_string(i)]. *)
Definition to_string (i : nat) : string := NilEmpty.string_of_uint (Nat.to_uint i).

(** The demo directory name chosen by [main] from the command line. *)
Definition demo_of (argv : list string) : string :=
  match argv with
  | _ :: id :: _ => ("demo_" ++ id)%string
  | _ => "demo_1"%string
  end.

(** [Eigen::Map<Eigen::Vector3d>(&offset[0])]: the first three doubles. *)
Definition Map3 (offset : list Qc) : Vec := head 3 offset.

(** The [for] loop of [main] that reads, shifts and shows the trajectories
    [first .. first + count - 1]; each comes with the colour it is drawn in. *)
Fixpoint load_trajectories `{FileSystem} (colour : nat -> string) (demo : string)
  (offset : list Qc) (first count : nat) : option (list (Mat * string)) :=
  match count with
  | O => Some []
  | S count' =>
    m <- read ("rsc/demos/" ++ demo ++ "/trajectory_" ++ to_string first ++ ".csv")%string ;;
    let shifted := rowwise_add m (Map3 offset) in
    rest <- load_trajectories colour demo offset (S first) count' ;;
    Some ((shifted, colour first) :: rest)
  end.

(** The QP problem handed to the solver each tick. *)
Record QPProblem := BuildQP {
  nP : nat; nC : nat; nS : nat; oD : nat;
  qp_state : R.t;
  qp_task : Vec;                    (* task acceleration reference *)
  qp_inputReference : option Vec    (* torque reference, if any *)
}.

(** [controllers::QuadraticControl]: builds and solves the QP. *)
Class QuadraticControl := { solve : QPProblem -> Vec }.

(** The state every [TaskDynamics] struct of the three drivers declares:
    the output [_u] of its [AbstractController] base, the position and the
    rotation feedback, and the external flag.  (The requester is the
    [Requester] interface; [_d] is the constant 6, [_xr] is never used.) *)
Module TaskDynamics.

Record t := Build {
  _u : Vec;
  _pos : controllers.Feedback R.t;
  _rot : controllers.Feedback SO.t;
  _external : bool
}.

Definition external (d : t) : bool := _external d.

Definition setExternal (value : bool) (d : t) : t :=
  {| _u := _u d; _pos := _pos d; _rot := _rot d; _external := value |}.

Definition output (d : t) : Vec := _u d.

(** [d] holding the rotation feedback [rot] instead of its own. *)
Definition with_rot (rot : controllers.Feedback SO.t) (d : t) : t :=
  {| _u := _u d; _pos := _pos d; _rot := rot; _external := _external d |}.

End TaskDynamics.

(* ================================================================== *)
(** ** src/sim_os.cpp                                                  *)
(* ================================================================== *)

Module sim_os.
Section Driver.
Context `{ControlLib} `{MultiBody} `{Requester} `{Simulator} `{FileSystem}.

(** [SE3::dimension()]. *)
Definition SE3_dimension : nat := 6.

(** [TaskDynamics::TaskDynamics()]. *)
Definition TaskDynamics_new : TaskDynamics.t :=
  {| TaskDynamics._u := Zero SE3_dimension;
     TaskDynamics._pos :=
       controllers.setStiffness (mscale (dbl 5 1) (Identity 3))
         (controllers.fresh 3 (R.of_coords 3 (unset_vec 3)));
     TaskDynamics._rot :=
       controllers.setStiffness (mscale (dbl 1 1) (Identity 3))
         (controllers.fresh 3 (SO.of_rot unset_rot));
     TaskDynamics._external := false |}.

(** [TaskDynamics::setReference]. *)
Definition setReference (x : SE.t) (d : TaskDynamics.t) : TaskDynamics.t :=
  {| TaskDynamics._u := TaskDynamics._u d;
     TaskDynamics._pos :=
       controllers.setReference (R.of_coords 3 (SE._trans x)) (TaskDynamics._pos d);
     TaskDynamics._rot :=
       controllers.setReference (SO.of_rot (SE._rot x)) (TaskDynamics._rot d);
     TaskDynamics._external := TaskDynamics._external d |}.

(** [TaskDynamics::update]. *)
Definition update (d : TaskDynamics.t) (x : SE.t) : TaskDynamics.t :=
  (* position ds *)
  let '(pos, lin) :=
    if TaskDynamics._external d
    then (TaskDynamics._pos d, request (SE._trans x) 3)
    else controllers.call (TaskDynamics._pos d) (R.of_coords 3 (SE._trans x)) in
  let u := set_head 3 lin (TaskDynamics._u d) in
  (* orientation ds *)
  let u := tail_setZero 3 u in
  {| TaskDynamics._u := u; TaskDynamics._pos := pos;
     TaskDynamics._rot := TaskDynamics._rot d;
     TaskDynamics._external := TaskDynamics._external d |}.

(** [_ds(x)]: update, then read the output. *)
Definition call (d : TaskDynamics.t) (x : SE.t) : TaskDynamics.t * Vec :=
  let d' := update d x in (d', TaskDynamics.output d').

Record OperationSpaceController := BuildController {
  _ref_pose : SE.t;
  _ds : TaskDynamics.t;
  _ctr : controllers.Feedback SE.t;
  _writer : string   (* the file the writer was set to *)
}.

(** [OperationSpaceController::OperationSpaceController(model, ref_pose)]. *)
Definition OperationSpaceController_new (ref_pose : SE.t) : OperationSpaceController :=
  {| _ref_pose := ref_pose;
     _ds := setReference ref_pose TaskDynamics_new;
     _ctr :=
       controllers.setDamping
         (diagonal [dbl 20 1; dbl 20 1; dbl 20 1; dbl 1 1; dbl 1 1; dbl 1 1])
         (controllers.fresh 6 (SE.of_parts unset_rot (unset_vec 3)));
     _writer := "demo_os_0.csv"%string |}.

(** The goal radius of the latch in [action]. *)
Definition latch_radius : Qc := dbl 5 100.

(** [OperationSpaceController::action(body)], with [body.state()] and
    [body.velocity()] passed as [q] and [dq]. *)
Definition action (c : OperationSpaceController) (q dq : Vec) (disk : Disk)
  : Vec * OperationSpaceController * Disk :=
  let curr_pose := framePose q in
  let disk :=
    if TaskDynamics.external (_ds c)
    then FileManager.append (_writer c) (SE._trans curr_pose) disk
    else disk in
  let ds :=
    if within latch_radius (SE._trans curr_pose) (SE._trans (_ref_pose c))
       && negb (TaskDynamics.external (_ds c))
    then TaskDynamics.setExternal true (_ds c)
    else _ds c in
  let jac := jacobian q in
  let curr_pose := SE.set_v curr_pose (mv jac dq) in
  let '(ds, u) := call ds curr_pose in
  let ref_pose := SE.set_v (_ref_pose c) u in
  let '(ctr, w) := controllers.call (controllers.setReference ref_pose (_ctr c)) curr_pose in
  let tau := mv (transpose 7 jac) w in
  (tau, {| _ref_pose := ref_pose; _ds := ds; _ctr := ctr; _writer := _writer c |}, disk).

(** *** [main] *)

(** The start-up code up to the trajectories: the offset read from the
    demo's YAML file and the seven trajectories, shifted and shown. *)
Definition load (argv : list string) : option (list Qc * list (Mat * string)) :=
  let demo := demo_of argv in
  config <- LoadFile ("rsc/demos/" ++ demo ++ "/dynamics_params.yaml")%string ;;
  offset <- YAML.as_vector (YAML.get config "offset") ;;
  trajectories <-
    load_trajectories (fun i => if (4 <=? i)%nat then "red"%string else "blue"%string)
      demo offset 1 7 ;;
  Some (offset, trajectories).

(** The rotation of the task-space target. *)
Definition ref_rot : Mat :=
  [ [dbl 768647 1000000; dbl 239631 1000000; dbl 593092 1000000];
    [dbl 948479 10000000; dbl (-959627) 1000000; dbl 264802 1000000];
    [dbl 632602 1000000; dbl (-147286) 1000000; dbl (-760343) 1000000] ].

(** [trajectories[0].row(0)]. *)
Definition first_row (trajectories : list (Mat * string)) : Vec :=
  nth 0 (fst (nth 0 trajectories ([], EmptyString))) [].

Definition ref_pose (trajectories : list (Mat * string)) : SE.t :=
  SE.of_parts ref_rot (first_row trajectories).

Definition dt : Qc := dbl 1 1000.
Definition T : Qc := dbl 20 1.
(** The radius of the goal test in the loop. *)
Definition goal_radius : Qc := dbl 5 100.

(** The variables the loop changes. *)
Record Loop := BuildLoop {
  t : Qc;
  next : time_point;
  prev : time_point;
  world : World;
  controller : OperationSpaceController;
  disk : Disk
}.

(** The controller as the engine calls it, the disk being part of what the
    call changes. *)
Definition act (cd : OperationSpaceController * Disk) (q dq : Vec)
  : Vec * (OperationSpaceController * Disk) :=
  let '(tau, c, d) := action (fst cd) q dq (snd cd) in (tau, (c, d)).

(** One pass through the body of [while (t <= T)]; [now] is the clock
    reading taken at its start.  [inl] is a [break]. *)
Definition iteration (offset : list Qc) (now : time_point) (s : Loop) : Exit * Loop + Loop :=
  let '(ok, w, (c, d)) :=
    step act (world s) (controller s, disk s) (step_index (t s) dt) in
  if negb ok
  then inl (EngineStopped,
            {| t := t s; next := next s; prev := prev s;
               world := w; controller := c; disk := d |})
  else
    let t' := t s + dt in
    if within goal_radius (framePosition (state w)) (Map3 offset)
    then inl (GoalReached,
              {| t := t'; next := next s; prev := prev s;
                 world := w; controller := c; disk := d |})
    else
      (* next += 1ms; sleep_until(next) *)
      inr {| t := t'; next := (next s + ms 1)%Z; prev := now;
             world := w; controller := c; disk := d |}.

(** The loop, run for at most [fuel] passes; [clock k] is the clock reading
    at the start of pass [k].  The result is the way the loop was left
    ([None]: the fuel ran out first), the final variables, and the variables
    at each [sleep_until], in order. *)
Fixpoint run (offset : list Qc) (clock : nat -> time_point) (fuel k : nat) (s : Loop)
  : option Exit * Loop * list Loop :=
  if Qle_bool (t s) T then
    match fuel with
    | O => (None, s, [])
    | S fuel' =>
      match iteration offset (clock k) s with
      | inl (e, s') => (Some e, s', [])
      | inr s' =>
        let '(e, s'', passes) := run offset clock fuel' (S k) s' in
        (e, s'', s' :: passes)
      end
    end
  else (Some HorizonPassed, s, []).

(** The deadlines handed to [sleep_until] over a run, in order. *)
Definition deadlines (passes : list Loop) : list time_point := map next passes.

(** The loop variables as [main] initialises them; [start] is the clock
    reading taken just before the loop. *)
Definition Loop_new (start : time_point) (w : World)
  (c : OperationSpaceController) (d : Disk) : Loop :=
  {| t := 0; next := start; prev := (start - ms 1)%Z;
     world := w; controller := c; disk := d |}.

End Driver.
End sim_os.

(* ================================================================== *)
(** ** src/simulation/id_modelbased.cpp *)
(* ================================================================== *)

Module id_modelbased.
Section Driver.
Context `{ControlLib} `{Libm} `{MultiBody} `{Requester} `{QuadraticControl}
        `{Simulator} `{FileSystem}.

(** [ParamsConfig]. *)
Definition ParamsConfig_dt : Qc := dbl 1 100.
Definition ParamsConfig_nP : nat := 7.
Definition ParamsConfig_nC : nat := 7.
Definition ParamsConfig_nS : nat := 6.
Definition ParamsConfig_oD : nat := 2.

Definition SE3_dimension : nat := 6.

(** [TaskDynamics::TaskDynamics()]. *)
Definition TaskDynamics_new : TaskDynamics.t :=
  (* position ds weights *)
  let k := dbl 0 1 in
  let d := dbl 2 1 * sqrt k in
  {| TaskDynamics._u := Zero SE3_dimension;
     TaskDynamics._pos :=
       controllers.setDamping (mscale d (Identity 3))
         (controllers.setStiffness (mscale k (Identity 3))
            (controllers.fresh 3 (R.of_coords 3 (unset_vec 3))));
     (* orientation ds weights *)
     TaskDynamics._rot :=
       controllers.setDamping (mscale (dbl 1 10) (Identity 3))
         (controllers.setStiffness (mscale (dbl 2 1) (Identity 3))
            (controllers.fresh 3 (SO.of_rot unset_rot)));
     TaskDynamics._external := false |}.

(** [TaskDynamics::setReference]. *)
Definition setReference (x : SE.t) (d : TaskDynamics.t) : TaskDynamics.t :=
  let p := R.set_v (R.of_coords 3 (SE._trans x)) (head 3 (SE._v x)) in
  let r := SO.set_v (SO.of_rot (SE._rot x)) (tail 3 (SE._v x)) in
  {| TaskDynamics._u := TaskDynamics._u d;
     TaskDynamics._pos := controllers.setReference p (TaskDynamics._pos d);
     TaskDynamics._rot := controllers.setReference r (TaskDynamics._rot d);
     TaskDynamics._external := TaskDynamics._external d |}.

(** [TaskDynamics::update]. *)
Definition update (d : TaskDynamics.t) (x : SE.t) : TaskDynamics.t :=
  (* position ds *)
  let p := R.set_v (R.of_coords 3 (SE._trans x)) (head 3 (SE._v x)) in
  let '(pos, lin) :=
    if TaskDynamics._external d
    then (TaskDynamics._pos d, request (SE._trans x) 3)
    else controllers.call (TaskDynamics._pos d) p in
  let u := set_head 3 lin (TaskDynamics._u d) in
  (* orientation ds *)
  let u := tail_setZero 3 u in
  {| TaskDynamics._u := u; TaskDynamics._pos := pos;
     TaskDynamics._rot := TaskDynamics._rot d;
     TaskDynamics._external := TaskDynamics._external d |}.

(** [(upper - lower) * 0.5 + lower]: the middle of the joint range. *)
Definition mid_range : Vec :=
  vadd (scale (dbl 1 2) (vsub positionUpper positionLower)) positionLower.

Record IKController := BuildController {
  _dt : Qc;
  _gravity : Vec;
  _config : controllers.Feedback R.t;
  _task : TaskDynamics.t
}.

(** The problem [_id] solves at [state], as the constructor configured it:
    sizes from [ParamsConfig], the task output as acceleration reference and
    [_gravity] as input reference. *)
Definition problem (state : R.t) (task : TaskDynamics.t) (gravity : Vec) : QPProblem :=
  {| nP := ParamsConfig_nP; nC := ParamsConfig_nC;
     nS := ParamsConfig_nS; oD := ParamsConfig_oD;
     qp_state := state; qp_task := TaskDynamics.output task;
     qp_inputReference := Some gravity |}.

(** [IKController::IKController(model, target_pose)], the model being at
    joint position [q] and velocity [dq]. *)
Definition IKController_new (q dq : Vec) (target_pose : SE.t) : IKController :=
  let state := R.set_v (R.of_coords 7 q) dq in
  let target_state := R.set_v (R.of_coords 7 mid_range) (Zero 7) in
  let config :=
    controllers.update
      (controllers.setReference target_state
         (controllers.setDamping (mscale (dbl 1 10) (Identity 7))
            (controllers.setStiffness (mscale (dbl 2 1) (Identity 7))
               (controllers.fresh 7 (R.of_coords 7 (unset_vec 7))))))
      state in
  let pose := SE.set_v (framePose (R._x state)) (frameVelocity (R._x state) (R._v state)) in
  {| _dt := ParamsConfig_dt;
     _gravity := gravityVector (R._x state);
     _config := config;
     _task := update (setReference target_pose TaskDynamics_new) pose |}.

Definition setTarget (target_pose : SE.t) (c : IKController) : IKController :=
  {| _dt := _dt c; _gravity := _gravity c; _config := _config c;
     _task := setReference target_pose (_task c) |}.

Definition setExternalDynamics (value : bool) (c : IKController) : IKController :=
  {| _dt := _dt c; _gravity := _gravity c; _config := _config c;
     _task := TaskDynamics.setExternal value (_task c) |}.

(** [IKController::action(body)]. *)
Definition action (c : IKController) (q dq : Vec) : Vec * IKController :=
  (* config position and velocity *)
  let state := R.set_v (R.of_coords 7 q) dq in
  let config := controllers.update (_config c) state in
  (* torque reference *)
  let gravity := nonLinearEffects (R._x state) (R._v state) in
  (* task *)
  let pose := SE.set_v (framePose (R._x state)) (frameVelocity (R._x state) (R._v state)) in
  let task := update (_task c) pose in
  let sol := solve (problem state task gravity) in
  (segment 7 7 sol,
   {| _dt := _dt c; _gravity := gravity; _config := config; _task := task |}).

(** *** [main] *)

(** The start-up code up to the trajectories: the offset read from the
    demo's YAML file and the single trajectory, shifted and shown. *)
Definition load (argv : list string) : option (list Qc * list (Mat * string)) :=
  let demo := demo_of argv in
  config <- LoadFile ("rsc/demos/" ++ demo ++ "/dynamics_params.yaml")%string ;;
  offset <- YAML.as_vector (YAML.get (YAML.get config "dynamics") "offset") ;;
  trajectories <-
    load_trajectories (fun i => if (4 <=? i)%nat then "red"%string else "green"%string)
      demo offset 1 1 ;;
  Some (offset, trajectories).

(** The rotation of the task-space target. *)
Definition oDes : Mat :=
  [ [dbl 768647 1000000; dbl 239631 1000000; dbl 593092 1000000];
    [dbl 948479 10000000; dbl (-959627) 1000000; dbl 264802 1000000];
    [dbl 632602 1000000; dbl (-147286) 1000000; dbl (-760343) 1000000] ].

(** [trajectories[0].row(0)]. *)
Definition xDes (trajectories : list (Mat * string)) : Vec :=
  nth 0 (fst (nth 0 trajectories ([], EmptyString))) [].

Definition tDes (trajectories : list (Mat * string)) : SE.t :=
  SE.set_v (SE.of_parts oDes (xDes trajectories)) (Zero 6).

Definition dt : Qc := dbl 1 1000.
Definition T : Qc := dbl 40 1.
(** The radius of the latch test in the loop. *)
Definition latch_radius : Qc := dbl 1 100.

(** The variables the loop changes. *)
Record Loop := BuildLoop {
  t : Qc;
  next : time_point;
  prev : time_point;
  enter : bool;
  world : World;
  controller : IKController
}.

(** One pass through the body of [while (t <= T)]; [now] is the clock
    reading taken at its start.  [inl] is a [break]. *)
Definition iteration (xDes : Vec) (now : time_point) (s : Loop) : Exit * Loop + Loop :=
  let '(ok, w, c) := step action (world s) (controller s) (step_index (t s) dt) in
  if negb ok
  then inl (EngineStopped,
            {| t := t s; next := next s; prev := prev s; enter := enter s;
               world := w; controller := c |})
  else
    let t' := t s + dt in
    let '(c, enter') :=
      if within latch_radius xDes (framePosition (state w)) && enter s
      then (setExternalDynamics true c, false)
      else (c, enter s) in
    (* next += 1ms; sleep_until(next) *)
    inr {| t := t'; next := (next s + ms 1)%Z; prev := now; enter := enter';
           world := w; controller := c |}.

(** The loop, run for at most [fuel] passes; [clock k] is the clock reading
    at the start of pass [k].  The result is the way the loop was left
    ([None]: the fuel ran out first), the final variables, and the variables
    at each [sleep_until], in order. *)
Fixpoint run (xDes : Vec) (clock : nat -> time_point) (fuel k : nat) (s : Loop)
  : option Exit * Loop * list Loop :=
  if Qle_bool (t s) T then
    match fuel with
    | O => (None, s, [])
    | S fuel' =>
      match iteration xDes (clock k) s with
      | inl (e, s') => (Some e, s', [])
      | inr s' =>
        let '(e, s'', passes) := run xDes clock fuel' (S k) s' in
        (e, s'', s' :: passes)
      end
    end
  else (Some HorizonPassed, s, []).

(** The deadlines handed to [sleep_until] over a run, in order. *)
Definition deadlines (passes : list Loop) : list time_point := map next passes.

(** The loop variables as [main] initialises them; [start] is the clock
    reading taken just before the loop. *)
Definition Loop_new (start : time_point) (w : World) (c : IKController) : Loop :=
  {| t := 0; next := start; prev := (start - ms 1)%Z; enter := true;
     world := w; controller := c |}.

End Driver.
End id_modelbased.

(* ================================================================== *)
(** ** tmp/id_modelfree.cpp *)
(* ================================================================== *)

Module id_modelfree.
Section Driver.
Context `{ControlLib} `{Libm} `{MultiBody} `{Requester} `{QuadraticControl}
        `{Simulator} `{FileSystem}.

(** [ParamsConfig]. *)
Definition ParamsConfig_dt : Qc := dbl 1 1.
Definition ParamsConfig_nP : nat := 7.
Definition ParamsConfig_nC : nat := 0.
Definition ParamsConfig_nS : nat := 6.
Definition ParamsConfig_oD : nat := 2.

Definition SE3_dimension : nat := 6.

(** [TaskDynamics::TaskDynamics()]. *)
Definition TaskDynamics_new : TaskDynamics.t :=
  (* position ds weights *)
  let k := dbl 5 1 in
  let d := dbl 3 1 * sqrt k in
  {| TaskDynamics._u := Zero SE3_dimension;
     TaskDynamics._pos :=
       controllers.setDamping (mscale d (Identity 3))
         (controllers.setStiffness (mscale k (Identity 3))
            (controllers.fresh 3 (R.of_coords 3 (unset_vec 3))));
     (* orientation ds weights *)
     TaskDynamics._rot :=
       controllers.setDamping (mscale (dbl 1 10) (Identity 3))
         (controllers.setStiffness (mscale (dbl 2 1) (Identity 3))
            (controllers.fresh 3 (SO.of_rot unset_rot)));
     TaskDynamics._external := false |}.

(** [TaskDynamics::setReference]. *)
Definition setReference (x : SE.t) (d : TaskDynamics.t) : TaskDynamics.t :=
  {| TaskDynamics._u := TaskDynamics._u d;
     TaskDynamics._pos :=
       controllers.setReference (R.of_coords 3 (SE._trans x)) (TaskDynamics._pos d);
     TaskDynamics._rot :=
       controllers.setReference (SO.of_rot (SE._rot x)) (TaskDynamics._rot d);
     TaskDynamics._external := TaskDynamics._external d |}.

(** [TaskDynamics::update]. *)
Definition update (d : TaskDynamics.t) (x : SE.t) : TaskDynamics.t :=
  (* position ds *)
  let p := R.set_v (R.of_coords 3 (SE._trans x)) (head 3 (SE._v x)) in
  let '(pos, lin) :=
    if TaskDynamics._external d
    then (TaskDynamics._pos d, request (SE._trans x) 3)
    else controllers.call (TaskDynamics._pos d) p in
  let u := set_head 3 lin (TaskDynamics._u d) in
  (* orientation ds *)
  let u := tail_setZero 3 u in
  {| TaskDynamics._u := u; TaskDynamics._pos := pos;
     TaskDynamics._rot := TaskDynamics._rot d;
     TaskDynamics._external := TaskDynamics._external d |}.

(** [(upper - lower) * 0.5 + lower]: the middle of the joint range. *)
Definition mid_range : Vec :=
  vadd (scale (dbl 1 2) (vsub positionUpper positionLower)) positionLower.

Record IDController := BuildController {
  _dt : Qc;
  _config : controllers.Feedback R.t;
  _task : TaskDynamics.t;
  _ctr : controllers.Feedback R.t
}.

(** The problem [_id] solves at [state], as the constructor configured it:
    sizes from [ParamsConfig], the task output as acceleration reference, no
    input reference. *)
Definition problem (state : R.t) (task : TaskDynamics.t) : QPProblem :=
  {| nP := ParamsConfig_nP; nC := ParamsConfig_nC;
     nS := ParamsConfig_nS; oD := ParamsConfig_oD;
     qp_state := state; qp_task := TaskDynamics.output task;
     qp_inputReference := None |}.

(** The gains of the joint-space controller. *)
Definition K : Mat :=
  diagonal [dbl 950 1; dbl 950 1; dbl 950 1; dbl 950 1; dbl 500 1; dbl 500 1; dbl 50 1].
Definition D : Mat :=
  diagonal [dbl 10 1; dbl 10 1; dbl 10 1; dbl 10 1; dbl 10 1; dbl 10 1; dbl 1 1].

(** [IDController::IDController(model, target_pose)], the model being at
    joint position [q] and velocity [dq]. *)
Definition IDController_new (q dq : Vec) (target_pose : SE.t) : IDController :=
  let state := R.set_v (R.of_coords 7 q) dq in
  let target_state := R.set_v (R.of_coords 7 mid_range) (Zero 7) in
  let config :=
    controllers.update
      (controllers.setReference target_state
         (controllers.setDamping (mscale (dbl 1 10) (Identity 7))
            (controllers.setStiffness (mscale (dbl 1 1) (Identity 7))
               (controllers.fresh 7 (R.of_coords 7 (unset_vec 7))))))
      state in
  let pose := SE.set_v (framePose (R._x state)) (frameVelocity (R._x state) (R._v state)) in
  {| _dt := dbl 1 100;
     _config := config;
     _task := update (setReference target_pose TaskDynamics_new) pose;
     _ctr :=
       controllers.setDamping D
         (controllers.setStiffness K
            (controllers.fresh 7 (R.of_coords 7 (unset_vec 7)))) |}.

Definition setTarget (target_pose : SE.t) (c : IDController) : IDController :=
  {| _dt := _dt c; _config := _config c;
     _task := setReference target_pose (_task c); _ctr := _ctr c |}.

Definition setExternalDynamics (value : bool) (c : IDController) : IDController :=
  {| _dt := _dt c; _config := _config c;
     _task := TaskDynamics.setExternal value (_task c); _ctr := _ctr c |}.

(** [IDController::action(body)]. *)
Definition action (c : IDController) (q dq : Vec) : Vec * IDController :=
  (* config position and velocity *)
  let state := R.set_v (R.of_coords 7 q) dq in
  let config := controllers.update (_config c) state in
  (* task *)
  let pose := SE.set_v (framePose (R._x state)) (frameVelocity (R._x state) (R._v state)) in
  let task := update (_task c) pose in
  (* id *)
  let sol := solve (problem state task) in
  let ref :=
    R.of_coords 7
      (vadd (vadd (R._x state) (scale (_dt c) (R._v state)))
            (scale (dbl 1 2 * _dt c * _dt c) (segment 0 7 sol))) in
  let ref := R.set_v ref (Zero 7) in
  let '(ctr, u) := controllers.call (controllers.setReference ref (_ctr c)) state in
  (vadd u (gravityVector (R._x state)),
   {| _dt := _dt c; _config := config; _task := task; _ctr := ctr |}).

(** *** [main] *)

(** The start-up code up to the trajectories: the offset read from the
    demo's YAML file and the single trajectory, shifted and shown. *)
Definition load (argv : list string) : option (list Qc * list (Mat * string)) :=
  let demo := demo_of argv in
  config <- LoadFile ("rsc/demos/" ++ demo ++ "/dynamics_params.yaml")%string ;;
  offset <- YAML.as_vector (YAML.get (YAML.get config "dynamics") "offset") ;;
  trajectories <-
    load_trajectories (fun i => if (4 <=? i)%nat then "red"%string else "green"%string)
      demo offset 1 1 ;;
  Some (offset, trajectories).

(** The rotation of the task-space target. *)
Definition oDes : Mat :=
  [ [dbl 768647 1000000; dbl 239631 1000000; dbl 593092 1000000];
    [dbl 948479 10000000; dbl (-959627) 1000000; dbl 264802 1000000];
    [dbl 632602 1000000; dbl (-147286) 1000000; dbl (-760343) 1000000] ].

(** [trajectories[0].row(0)]. *)
Definition xDes (trajectories : list (Mat * string)) : Vec :=
  nth 0 (fst (nth 0 trajectories ([], EmptyString))) [].

Definition tDes (trajectories : list (Mat * string)) : SE.t :=
  SE.set_v (SE.of_parts oDes (xDes trajectories)) (Zero 6).

Definition dt : Qc := dbl 1 1000.
Definition T : Qc := dbl 40 1.
(** The radius of the latch test in the loop. *)
Definition latch_radius : Qc := dbl 1 100.

(** The variables the loop changes. *)
Record Loop := BuildLoop {
  t : Qc;
  next : time_point;
  prev : time_point;
  enter : bool;
  world : World;
  controller : IDController
}.

(** One pass through the body of [while (t <= T)]; [now] is the clock
    reading taken at its start.  [inl] is a [break]. *)
Definition iteration (xDes : Vec) (now : time_point) (s : Loop) : Exit * Loop + Loop :=
  let '(ok, w, c) := step action (world s) (controller s) (step_index (t s) dt) in
  if negb ok
  then inl (EngineStopped,
            {| t := t s; next := next s; prev := prev s; enter := enter s;
               world := w; controller := c |})
  else
    let t' := t s + dt in
    let '(c, enter') :=
      if within latch_radius xDes (framePosition (state w)) && enter s
      then (setExternalDynamics true c, false)
      else (c, enter s) in
    (* next += 1ms; sleep_until(next) *)
    inr {| t := t'; next := (next s + ms 1)%Z; prev := now; enter := enter';
           world := w; controller := c |}.

(** The loop, run for at most [fuel] passes; [clock k] is the clock reading
    at the start of pass [k].  The result is the way the loop was left
    ([None]: the fuel ran out first), the final variables, and the variables
    at each [sleep_until], in order. *)
Fixpoint run (xDes : Vec) (clock : nat -> time_point) (fuel k : nat) (s : Loop)
  : option Exit * Loop * list Loop :=
  if Qle_bool (t s) T then
    match fuel with
    | O => (None, s, [])
    | S fuel' =>
      match iteration xDes (clock k) s with
      | inl (e, s') => (Some e, s', [])
      | inr s' =>
        let '(e, s'', passes) := run xDes clock fuel' (S k) s' in
        (e, s'', s' :: passes)
      end
    end
  else (Some HorizonPassed, s, []).

(** The deadlines handed to [sleep_until] over a run, in order. *)
Definition deadlines (passes : list Loop) : list time_point := map next passes.

(** The loop variables as [main] initialises them; [start] is the clock
    reading taken just before the loop. *)
Definition Loop_new (start : time_point) (w : World) (c : IDController) : Loop :=
  {| t := 0; next := start; prev := (start - ms 1)%Z; enter := true;
     world := w; controller := c |}.

End Driver.
End id_modelfree.

(* ================================================================== *)
(** ** Reading the controllers tick after tick                         *)
(* ================================================================== *)

(** The goal test of the operation-space latch at joint position [q]. *)
Definition os_hit `{MultiBody} (ref : SE.t) (q : Vec) : bool :=
  within sim_os.latch_radius (SE._trans (framePose q)) (SE._trans ref).

(** The operation-space controller called on the body states [ticks], one
    after the other. *)
Fixpoint drive_os `{ControlLib} `{MultiBody} `{Requester}
  (c : sim_os.OperationSpaceController) (disk : Disk) (ticks : list (Vec * Vec))
  : sim_os.OperationSpaceController * Disk :=
  match ticks with
  | [] => (c, disk)
  | (q, dq) :: rest =>
    let '(_, c', disk') := sim_os.action c q dq disk in drive_os c' disk' rest
  end.

(** The rows the operation-space log gains over [ticks], read off the
    spec: one row, the end-effector position, for every tick entered with
    the latch set; [latched] is the latch on entry, [hit] the tick's goal
    test. *)
Fixpoint logged (pos : Vec -> Vec) (hit : Vec -> bool) (latched : bool)
  (ticks : list (Vec * Vec)) : list Vec :=
  match ticks with
  | [] => []
  | (q, _) :: rest =>
    (if latched then [pos q] else []) ++ logged pos hit (latched || hit q) rest
  end.

(** The torque the spec announces for a body at rest: the stiffness term
    alone, [J^T K_ct (x* - x)]. *)
Definition stiffness_torque `{ControlLib} `{MultiBody}
  (c : sim_os.OperationSpaceController) (q : Vec) : Vec :=
  mv (transpose 7 (jacobian q))
     (mv (controllers._k (sim_os._ctr c)) (minus (sim_os._ref_pose c) (framePose q))).

(** The log file name the spec announces for a command line. *)
Definition announced_log (argv : list string) : string :=
  match argv with
  | _ :: id :: _ => ("demo_os_" ++ id ++ ".csv")%string
  | _ => "demo_os_1.csv"%string
  end.

(** The latch of a QP driver as its loop sees it, and the goal test the loop
    makes on the variables it holds at the end of a pass. *)
Definition mb_latched `{Simulator} (s : id_modelbased.Loop) : bool :=
  TaskDynamics.external (id_modelbased._task (id_modelbased.controller s)).
Definition mb_hit `{MultiBody} `{Simulator} (xDes : Vec) (s : id_modelbased.Loop) : bool :=
  within id_modelbased.latch_radius xDes (framePosition (state (id_modelbased.world s))).
Definition mf_latched `{Simulator} (s : id_modelfree.Loop) : bool :=
  TaskDynamics.external (id_modelfree._task (id_modelfree.controller s)).
Definition mf_hit `{MultiBody} `{Simulator} (xDes : Vec) (s : id_modelfree.Loop) : bool :=
  within id_modelfree.latch_radius xDes (framePosition (state (id_modelfree.world s))).

(** The state in which a loop may be left, by the way it was left: the
    simulated time is past the horizon, the engine asked to stop, or the
    end-effector is within [radius] of [target]. *)
Definition left_as `{MultiBody} `{Simulator} (e : Exit) (t T : Qc) (w : World)
  (radius : Qc) (target : Vec) : Prop :=
  match e with
  | HorizonPassed => Qle_bool t T = false
  | EngineStopped => proceed w = false
  | GoalReached => within radius (framePosition (state w)) target = true
  end.

(** The state in which the spec has the operation-space loop left: past the
    horizon, or the engine stopped, or the end-effector within the radius of
    the goal translation [goal]. *)
Definition left_as_announced `{MultiBody} `{Simulator} (t T : Qc) (w : World)
  (radius : Qc) (goal : Vec) : Prop :=
  Qle_bool t T = false \/ proceed w = false \/
  within radius (framePosition (state w)) goal = true.

(** The simulated time after [n] passes of a loop: [n] steps of 1 ms. *)
Definition elapsed (n : nat) : Qc := Q2Qc (Z.of_nat n # 1000).

(** Deadlines that follow [start] one [period] apart: the first is
    [start + period], the next [start + 2 period], and so on. *)
Definition paced (start period : Z) (deadlines : list time_point) : Prop :=
  forall i d, nth_error deadlines i = Some d -> d = (start + period * (Z.of_nat i + 1))%Z.

(** A task-dynamics state of the shape the constructors build: a 6-vector
    output and a position feedback with 3-row gains. *)
Definition shaped (d : TaskDynamics.t) : Prop :=
  length (TaskDynamics._u d) = 6%nat /\
  length (controllers._k (TaskDynamics._pos d)) = 3%nat /\
  length (controllers._c (TaskDynamics._pos d)) = 3%nat.

(* ================================================================== *)
(** ** A small concrete plant                                          *)
(* ================================================================== *)

(** A gantry whose first three joints are the end-effector coordinates,
    driven through a scripted sequence of joint positions; it serves to run
    the drivers on concrete inputs. *)
Module Gantry.

#[export] Instance lib : ControlLib :=
  {| so3_log := fun _ _ => Zero 3;
     unset_gain := fun d => MZero d d;
     unset_vec := Zero;
     unset_rot := Identity 3 |}.

#[export] Instance libm : Libm := {| sqrt := fun x => x |}.

#[export] Instance body : MultiBody :=
  {| jacobian := fun _ => map (fun r => r ++ [0]) (Identity 6);
     framePose := fun q => SE.Build (Identity 3) (head 3 q) (Zero 6);
     frameVelocity := fun _ dq => head 6 dq;
     framePosition := fun q => head 3 q;
     gravityVector := fun _ => Zero 7;
     nonLinearEffects := fun _ _ => Zero 7;
     positionLower := repeat (dbl (-1) 1) 7;
     positionUpper := repeat (dbl 1 1) 7 |}.

(** The remote dynamics answers with a constant velocity. *)
#[export] Instance remote : Requester :=
  {| request := fun _ n => firstn n [dbl 1 10; dbl 2 10; dbl 3 10] |}.

(** The solver answers with a fixed decision vector of 7 + 7 + 6 entries. *)
Definition z_qdd : Vec := map (fun n => dbl n 1) [1; 2; 3; 4; 5; 6; 7]%Z.
Definition z_tau : Vec := map (fun n => dbl n 1) [11; 12; 13; 14; 15; 16; 17]%Z.
Definition z_s : Vec := Zero 6.
#[export] Instance solver : QuadraticControl :=
  {| solve := fun p => z_qdd ++ firstn (nC p) z_tau ++ z_s |}.

(** The world is the script still to play; the engine stops at its end. *)
#[export] Instance engine : Simulator :=
  {| World := list Vec;
     state := fun w => hd (Zero 7) w;
     velocity := fun _ => Zero 7;
     integrate := fun w _ _ => tl w;
     proceed := fun w => match w with [] => false | _ => true end |}.

(** A joint position with the end-effector at [(x, 0, 0)]. *)
Definition at_x (x : Qc) : Vec := x :: Zero 6.

(** Demo 1 on disk: offset (1, 0, 0) under [dynamics.offset] only, and
    every trajectory starting at (5, 0, 0). *)
Definition demo_1_yaml : YAML.Node :=
  YAML.Map [("dynamics"%string,
             YAML.Map [("offset"%string,
                        YAML.Sequence [YAML.Scalar (dbl 1 1); YAML.Scalar 0; YAML.Scalar 0])])].

Definition trajectory : Mat := [[dbl 5 1; 0; 0]; [dbl 3 1; 0; 0]; [0; 0; 0]].

#[export] Instance files : FileSystem :=
  {| LoadFile := fun path =>
       if String.eqb path "rsc/demos/demo_1/dynamics_params.yaml" then Some demo_1_yaml else None;
     read := fun path =>
       if String.prefix "rsc/demos/demo_1/trajectory_" path then Some trajectory else None |}.

(** The same demo with the offset at the top level of the YAML file. *)
Definition files_top_level : FileSystem :=
  {| LoadFile := fun path =>
       if String.eqb path "rsc/demos/demo_1/dynamics_params.yaml"
       then Some (YAML.Map [("offset"%string,
                             YAML.Sequence [YAML.Scalar (dbl 1 1); YAML.Scalar 0; YAML.Scalar 0])])
       else None;
     read := fun path =>
       if String.prefix "rsc/demos/demo_1/trajectory_" path then Some trajectory else None |}.

(** The reference pose of the operation-space demo for that disk content:
    first row plus offset, at rest. *)
Definition goal : SE.t := SE.Build sim_os.ref_rot [dbl 6 1; 0; 0] (Zero 6).

Definition empty_disk : Disk := fun _ => [].

(** The operation-space controller built for [goal], a body at rest at the
    origin, and a sequence of body states that reaches the goal at its
    second tick and moves on. *)
Definition os0 : sim_os.OperationSpaceController := sim_os.OperationSpaceController_new goal.
Definition rest : Vec := Zero 7.
Definition ticks : list (Vec * Vec) :=
  [(rest, rest); (at_x (dbl 6 1), rest); (at_x (dbl 3 1), rest); (at_x (dbl 2 1), rest)].

(** A script that brings the end-effector to the offset point (1, 0, 0) in
    one step. *)
Definition to_offset : list Vec := [rest; at_x (dbl 1 1); at_x (dbl 1 1)].

(** A pose away from the goal, moving along x. *)
Definition moving : SE.t :=
  SE.Build (Identity 3) [dbl 1 1; 0; 0] [dbl 1 2; 0; 0; 0; 0; 0].

(** A remote dynamics that answers zero, and an operation-space controller
    whose reference is where the resting body already is. *)
Definition silent : Requester := {| request := fun _ n => Zero n |}.
Definition home : SE.t := SE.Build (Identity 3) [0; 0; 0] (Zero 6).
Definition os_home : sim_os.OperationSpaceController := sim_os.OperationSpaceController_new home.

(** A script that passes by the QP drivers' target at its second step. *)
Definition by_target : list Vec :=
  [rest; at_x (dbl 3 1); at_x (dbl 6 1); at_x (dbl 3 1); at_x (dbl 3 1)].
Definition target : SE.t := SE.Build id_modelbased.oDes [dbl 6 1; 0; 0] (Zero 6).

(** A control library whose feedback blocks start with the identity as
    gain, the rest as in [lib]. *)
Definition damped_lib : ControlLib :=
  {| so3_log := fun _ _ => Zero 3;
     unset_gain := fun d => Identity d;
     unset_vec := Zero;
     unset_rot := Identity 3 |}.

(** An operation-space controller for [goal], already latched, with the
    identity as stiffness of its feedback. *)
Definition os_stiff_latched : sim_os.OperationSpaceController :=
  sim_os.BuildController goal
    (TaskDynamics.setExternal true (sim_os._ds os0))
    (controllers.setStiffness (Identity 6) (sim_os._ctr os0))
    (sim_os._writer os0).

(** A script that stays clear of the offset point and of the target for
    four passes, then ends. *)
Definition wandering : list Vec :=
  [rest; at_x (dbl 3 1); at_x (dbl 4 1); at_x (dbl 3 1); at_x (dbl 4 1)].

Definition still_clock : nat -> time_point := fun _ => 0%Z.

End Gantry.

(* ================================================================== *)
(** ** Names for what the drivers read and reach                       *)
(* ================================================================== *)

(** The two kinds of path [main] builds for a demo directory. *)
Definition params_path (demo : string) : string :=
  ("rsc/demos/" ++ demo ++ "/dynamics_params.yaml")%string.
Definition trajectory_path (demo : string) (i : nat) : string :=
  ("rsc/demos/" ++ demo ++ "/trajectory_" ++ to_string i ++ ".csv")%string.

(** The colours [main] gives its trajectories: [i >= 4 ? "red" : other]. *)
Definition colour_of (other : string) (i : nat) : string :=
  if (4 <=? i)%nat then "red"%string else other.

(** The loop variables a pass ends with, whether it breaks or not. *)
Definition after {L : Type} (r : Exit * L + L) : L :=
  match r with inl (_, s) => s | inr s => s end.

(** A task-dynamics block after the updates at the poses [xs], in order. *)
Definition updated (update : TaskDynamics.t -> SE.t -> TaskDynamics.t)
  (d : TaskDynamics.t) (xs : list SE.t) : TaskDynamics.t :=
  fold_left update xs d.

(** What an update in local mode keeps: the flag, the shape, and the gains
    and the reference of the position feedback. *)
Definition keeps (d d' : TaskDynamics.t) : Prop :=
  TaskDynamics._external d' = false /\ shaped d' /\
  controllers._k (TaskDynamics._pos d') = controllers._k (TaskDynamics._pos d) /\
  controllers._c (TaskDynamics._pos d') = controllers._c (TaskDynamics._pos d) /\
  controllers._xr (TaskDynamics._pos d') = controllers._xr (TaskDynamics._pos d).

(** From controller [c] and disk [d] to [c'] and [d'] the log has only
    grown: same writer, a set latch still set, every file the old rows
    followed by new ones, none of them new outside the writer's file or
    while the latch is clear. *)
Definition log_grown (c : sim_os.OperationSpaceController) (d : Disk)
  (c' : sim_os.OperationSpaceController) (d' : Disk) : Prop :=
  sim_os._writer c' = sim_os._writer c /\
  (TaskDynamics.external (sim_os._ds c) = true ->
   TaskDynamics.external (sim_os._ds c') = true) /\
  forall path, exists rows,
    d' path = d path ++ rows /\
    (path <> sim_os._writer c -> rows = []) /\
    (TaskDynamics.external (sim_os._ds c') = false -> rows = []).

(** The diagonal of the operation-space controller's damping. *)
Definition os_damping : Vec := [dbl 20 1; dbl 20 1; dbl 20 1; dbl 1 1; dbl 1 1; dbl 1 1].

(** The diagonals of the model-free joint controller's gains. *)
Definition mf_stiffness : Vec :=
  [dbl 950 1; dbl 950 1; dbl 950 1; dbl 950 1; dbl 500 1; dbl 500 1; dbl 50 1].
Definition mf_damping : Vec :=
  [dbl 10 1; dbl 10 1; dbl 10 1; dbl 10 1; dbl 10 1; dbl 10 1; dbl 1 1].

(** Lists of a known length, opened into their elements. *)
Ltac open_list l :=
  repeat (let x := fresh "x" in destruct l as [|x l]; simpl in *; try discriminate; try lia).

(* ================================================================== *)
(** * Properties                                                       *)
(* ================================================================== *)

(** ** Vectors *)

Lemma length_zip_with f a b : length (zip_with f a b) = Nat.min (length a) (length b).
Proof.
  revert b; induction a as [|x a IH]; intros [|y b]; simpl; auto.
Qed.

Lemma length_Zero n : length (Zero n) = n.
Proof. apply repeat_length. Qed.

Lemma length_mv M v : length (mv M v) = length M.
Proof. apply length_map. Qed.

Lemma dot_Zero_l n w : dot (Zero n) w = 0.
Proof.
  unfold dot. revert w; induction n as [|n IH]; intros [|y w]; simpl; auto.
  rewrite IH. ring.
Qed.

Lemma dot_Zero_r n r : dot r (Zero n) = 0.
Proof.
  unfold dot. revert n; induction r as [|x r IH]; intros [|n]; simpl; auto.
  rewrite IH. ring.
Qed.

Lemma mv_MZero r c w : mv (MZero r c) w = Zero r.
Proof.
  unfold mv, MZero. induction r as [|r IH]; simpl; auto.
  rewrite dot_Zero_l, IH. reflexivity.
Qed.

Lemma mv_Zero_r M n : mv M (Zero n) = Zero (length M).
Proof.
  unfold mv. induction M as [|r M IH]; simpl; auto.
  rewrite dot_Zero_r, IH. reflexivity.
Qed.

Lemma vsub_Zero_r u n : (length u <= n)%nat -> vsub u (Zero n) = u.
Proof.
  unfold vsub. revert n; induction u as [|x u IH]; intros [|n] Hn; simpl in *;
    try reflexivity; try lia.
  rewrite IH by lia. f_equal. ring.
Qed.

Lemma vadd_Zero_r u n : (length u <= n)%nat -> vadd u (Zero n) = u.
Proof.
  unfold vadd. revert n; induction u as [|x u IH]; intros [|n] Hn; simpl in *;
    try reflexivity; try lia.
  rewrite IH by lia. f_equal. ring.
Qed.

(** Reading back the head and the tail of an output written in two steps. *)
Lemma tail_tail_setZero n u : tail n (tail_setZero n u) = Zero n.
Proof.
  unfold tail, tail_setZero.
  rewrite length_app, length_Zero, length_firstn.
  replace (Nat.min (length u - n) (length u) + n - n)%nat
    with (length (firstn (length u - n) u) + 0)%nat
    by (rewrite length_firstn; lia).
  rewrite skipn_app, Nat.add_comm, Nat.add_0_l.
  rewrite skipn_all. simpl.
  replace (length (firstn (length u - n) u) - length (firstn (length u - n) u))%nat
    with 0%nat by lia.
  reflexivity.
Qed.

Lemma head_written lin u :
  length lin = 3%nat -> length u = 6%nat ->
  head 3 (tail_setZero 3 (set_head 3 lin u)) = lin.
Proof.
  intros Hl Hu. open_list lin. open_list u. reflexivity.
Qed.

Lemma length_written lin u :
  length lin = 3%nat -> length u = 6%nat ->
  length (tail_setZero 3 (set_head 3 lin u)) = 6%nat.
Proof.
  intros Hl Hu. open_list lin; open_list u; reflexivity.
Qed.

Lemma length_law_R K D (xr x : R.t) :
  length K = 3%nat -> length D = 3%nat -> length (controllers.law K D xr x) = 3%nat.
Proof.
  intros HK HD. unfold controllers.law, vadd.
  rewrite length_zip_with, !length_mv, HK, HD. reflexivity.
Qed.

(** ** The task-dynamics block *)

Section TaskDynamicsFacts.
Context `{ControlLib} `{Libm} `{Requester}.

(** The external flag is not touched by an update. *)
Lemma update_os_external d x :
  TaskDynamics.external (sim_os.update d x) = TaskDynamics.external d.
Proof.
  unfold sim_os.update. destruct (TaskDynamics._external d) eqn:E; simpl; auto.
Qed.

Lemma update_mb_external d x :
  TaskDynamics.external (id_modelbased.update d x) = TaskDynamics.external d.
Proof.
  unfold id_modelbased.update. destruct (TaskDynamics._external d) eqn:E; simpl; auto.
Qed.

Lemma update_mf_external d x :
  TaskDynamics.external (id_modelfree.update d x) = TaskDynamics.external d.
Proof.
  unfold id_modelfree.update. destruct (TaskDynamics._external d) eqn:E; simpl; auto.
Qed.

(** The blocks the QP constructors build have the constructors' shape; the
    one of the operation-space driver has it, with a zero damping gain, when
    a feedback block starts with zero gains. *)
Lemma shaped_new :
  shaped id_modelbased.TaskDynamics_new /\
  shaped id_modelfree.TaskDynamics_new /\
  (unset_gain 3 = MZero 3 3 ->
   shaped sim_os.TaskDynamics_new /\
   controllers._c (TaskDynamics._pos sim_os.TaskDynamics_new) = MZero 3 3).
Proof.
  split; [|split]; [repeat split; reflexivity ..|].
  intros E. repeat split; try reflexivity; cbn; rewrite E; reflexivity.
Qed.

(** Setting the reference or the flag keeps the shape and the gains. *)
Lemma shaped_setters d x b :
  shaped d ->
  shaped (sim_os.setReference x d) /\ shaped (id_modelbased.setReference x d) /\
  shaped (id_modelfree.setReference x d) /\ shaped (TaskDynamics.setExternal b d) /\
  controllers._c (TaskDynamics._pos (sim_os.setReference x d))
    = controllers._c (TaskDynamics._pos d) /\
  controllers._c (TaskDynamics._pos (TaskDynamics.setExternal b d))
    = controllers._c (TaskDynamics._pos d).
Proof. intros S. repeat split; apply S. Qed.

(** An update keeps the shape and the gains, the reply having three
    scalars. *)
Lemma shaped_update d x :
  shaped d -> length (request (SE._trans x) 3) = 3%nat ->
  (shaped (sim_os.update d x) /\
   controllers._c (TaskDynamics._pos (sim_os.update d x))
     = controllers._c (TaskDynamics._pos d)) /\
  shaped (id_modelbased.update d x) /\ shaped (id_modelfree.update d x).
Proof.
  intros (Hu & Hk & Hc) Hr.
  unfold shaped, sim_os.update, id_modelbased.update, id_modelfree.update.
  destruct (TaskDynamics._external d);
    cbn -[head tail_setZero set_head controllers.law];
    rewrite !length_written by (try apply length_law_R; assumption); auto 10.
Qed.

(** C10.  In the three variants of the task dynamics, whatever the pose and
    the external flag, the last three components of the output are zero
    after an update.  The rotation feedback is built and given gains by the
    constructor, yet it is neither changed by an update nor read by it: the
    output is the same whatever rotation feedback the block holds. *)
Theorem angular_output_is_zero :
  (forall d x, tail 3 (TaskDynamics.output (sim_os.update d x)) = Zero 3) /\
  (forall d x, tail 3 (TaskDynamics.output (id_modelbased.update d x)) = Zero 3) /\
  (forall d x, tail 3 (TaskDynamics.output (id_modelfree.update d x)) = Zero 3) /\
  (controllers._k (TaskDynamics._rot sim_os.TaskDynamics_new) = mscale (dbl 1 1) (Identity 3) /\
   controllers._k (TaskDynamics._rot id_modelbased.TaskDynamics_new) = mscale (dbl 2 1) (Identity 3) /\
   controllers._k (TaskDynamics._rot id_modelfree.TaskDynamics_new) = mscale (dbl 2 1) (Identity 3)) /\
  (forall d x rot,
     TaskDynamics._rot (sim_os.update d x) = TaskDynamics._rot d /\
     TaskDynamics.output (sim_os.update (TaskDynamics.with_rot rot d) x)
       = TaskDynamics.output (sim_os.update d x)) /\
  (forall d x rot,
     TaskDynamics._rot (id_modelbased.update d x) = TaskDynamics._rot d /\
     TaskDynamics.output (id_modelbased.update (TaskDynamics.with_rot rot d) x)
       = TaskDynamics.output (id_modelbased.update d x)) /\
  (forall d x rot,
     TaskDynamics._rot (id_modelfree.update d x) = TaskDynamics._rot d /\
     TaskDynamics.output (id_modelfree.update (TaskDynamics.with_rot rot d) x)
       = TaskDynamics.output (id_modelfree.update d x)).
Proof.
  repeat split; intros;
    try reflexivity;
    try (unfold sim_os.update, id_modelbased.update, id_modelfree.update, TaskDynamics.with_rot;
         destruct d as [u pos r ext]; destruct ext; simpl;
         first [ apply tail_tail_setZero | reflexivity ]).
Qed.

(** The operation-space update reads the translation of the pose only: the
    twist the controller has just written into the pose does not reach the
    position feedback. *)
Lemma update_os_ignores_twist d x v :
  sim_os.update d (SE.set_v x v) = sim_os.update d x.
Proof. reflexivity. Qed.


End TaskDynamicsFacts.

(** ** The operation-space controller *)

Section OperationSpaceFacts.
Context `{ControlLib} `{MultiBody} `{Requester}.

(** What one call of [action] does to the controller and to the disk. *)
Lemma action_os_effect c q dq disk :
  let '(_, c', disk') := sim_os.action c q dq disk in
  SE._trans (sim_os._ref_pose c') = SE._trans (sim_os._ref_pose c) /\
  SE._rot (sim_os._ref_pose c') = SE._rot (sim_os._ref_pose c) /\
  TaskDynamics.external (sim_os._ds c')
    = TaskDynamics.external (sim_os._ds c) || os_hit (sim_os._ref_pose c) q /\
  sim_os._writer c' = sim_os._writer c /\
  controllers._k (sim_os._ctr c') = controllers._k (sim_os._ctr c) /\
  controllers._c (sim_os._ctr c') = controllers._c (sim_os._ctr c) /\
  disk' = if TaskDynamics.external (sim_os._ds c)
          then FileManager.append (sim_os._writer c) (SE._trans (framePose q)) disk
          else disk.
Proof.
  unfold sim_os.action, sim_os.call, controllers.call.
  cbn -[sim_os.update within]. repeat split.
  rewrite update_os_external. unfold os_hit.
  destruct (within sim_os.latch_radius _ _);
    destruct (TaskDynamics.external (sim_os._ds c)) eqn:E; simpl; auto.
Qed.

(** C2.  The torque of one call of the operation-space controller at the
    joint state [(q, dq)] is [J^T (K_ct (x* - x) + D_ct (x*.v - x.v))]:
    [J] is the Jacobian at [q], [x] the frame pose at [q] with its twist set
    to [J dq], [x*] the reference pose with its twist set to the output of
    the task dynamics updated at [x] (after the latch test of this call),
    and [x* - x] the translation difference followed by the rotation
    logarithm.  The gains are those the controller holds, and a call leaves
    them as they are. *)
Theorem operation_space_torque :
  forall (c : sim_os.OperationSpaceController) (q dq : Vec) (disk : Disk),
    let J := jacobian q in
    let x := SE.set_v (framePose q) (mv J dq) in
    let ds :=
      if within sim_os.latch_radius (SE._trans (framePose q))
           (SE._trans (sim_os._ref_pose c))
         && negb (TaskDynamics.external (sim_os._ds c))
      then TaskDynamics.setExternal true (sim_os._ds c)
      else sim_os._ds c in
    let xr := SE.set_v (sim_os._ref_pose c)
                (TaskDynamics.output (sim_os.update ds x)) in
    let K_ct := controllers._k (sim_os._ctr c) in
    let D_ct := controllers._c (sim_os._ctr c) in
    let '(tau, c', _) := sim_os.action c q dq disk in
    tau = mv (transpose 7 J)
            (vadd (mv K_ct (vsub (SE._trans xr) (SE._trans x)
                            ++ so3_log (SE._rot xr) (SE._rot x)))
                  (mv D_ct (vsub (SE._v xr) (SE._v x)))) /\
    SE._v x = mv J dq /\
    sim_os._ref_pose c' = xr /\
    controllers._k (sim_os._ctr c') = K_ct /\
    controllers._c (sim_os._ctr c') = D_ct.
Proof.
  intros. unfold sim_os.action, sim_os.call, controllers.call.
  cbn -[sim_os.update within mv transpose vadd vsub]. repeat split.
Qed.

(** The gains of the controller the constructor builds: the damping set in
    the constructor, the stiffness never set. *)
Lemma operation_space_gains ref :
  controllers._k (sim_os._ctr (sim_os.OperationSpaceController_new ref)) = unset_gain 6 /\
  controllers._c (sim_os._ctr (sim_os.OperationSpaceController_new ref))
    = diagonal [dbl 20 1; dbl 20 1; dbl 20 1; dbl 1 1; dbl 1 1; dbl 1 1].
Proof. split; reflexivity. Qed.

(** C5, as the code has it.  With the joints at rest ([dq = 0]) the current
    twist vanishes, but the reference twist is the task-dynamics output [u]
    of this tick, so the torque is [J^T (K_ct (x* - x) + D_ct u)]: the
    damping gain acts on [u].  The torque is the stiffness term
    [J^T K_ct (x* - x)] alone when that output is zero.  (Shapes: [J] has six
    rows, [u] six entries, the gains six rows.) *)
Theorem torque_at_rest :
  forall (c : sim_os.OperationSpaceController) (q : Vec) (disk : Disk),
    let J := jacobian q in
    let x := SE.set_v (framePose q) (mv J (Zero 7)) in
    let ds :=
      if within sim_os.latch_radius (SE._trans (framePose q))
           (SE._trans (sim_os._ref_pose c))
         && negb (TaskDynamics.external (sim_os._ds c))
      then TaskDynamics.setExternal true (sim_os._ds c)
      else sim_os._ds c in
    let u := TaskDynamics.output (sim_os.update ds x) in
    let e := minus (sim_os._ref_pose c) (framePose q) in
    let K_ct := controllers._k (sim_os._ctr c) in
    let D_ct := controllers._c (sim_os._ctr c) in
    length J = 6%nat -> length u = 6%nat ->
    length K_ct = 6%nat -> length D_ct = 6%nat ->
    let tau := fst (fst (sim_os.action c q (Zero 7) disk)) in
    tau = mv (transpose 7 J) (vadd (mv K_ct e) (mv D_ct u)) /\
    (u = Zero 6 -> tau = stiffness_torque c q).
Proof.
  intros c q disk J x ds u e K_ct D_ct HJ Hu HK HD tau.
  assert (Htau : tau = mv (transpose 7 J) (vadd (mv K_ct e) (mv D_ct u))).
  { unfold tau, sim_os.action, sim_os.call, controllers.call.
    cbn -[sim_os.update within mv transpose vadd vsub Zero].
    unfold controllers.law.
    cbn [minus tangent SE_Space SE._v SE._trans SE._rot SE.set_v].
    fold J. fold x. fold ds. fold u. fold K_ct. fold D_ct.
    rewrite mv_Zero_r, HJ.
    rewrite vsub_Zero_r by lia. reflexivity. }
  split; [exact Htau|].
  intros Hz. rewrite Htau, Hz. unfold stiffness_torque. fold J K_ct e.
  rewrite mv_Zero_r, HD. rewrite vadd_Zero_r by (rewrite length_mv; lia).
  reflexivity.
Qed.

End OperationSpaceFacts.

(** ** The operation-space controller, tick after tick *)

Section OperationSpaceRuns.
Context `{ControlLib} `{MultiBody} `{Requester}.

Lemma os_hit_trans ref ref' q :
  SE._trans ref' = SE._trans ref -> os_hit ref' q = os_hit ref q.
Proof. unfold os_hit. intros ->. reflexivity. Qed.

Lemma existsb_os_hit ref ref' (ticks : list (Vec * Vec)) :
  SE._trans ref' = SE._trans ref ->
  existsb (fun tk => os_hit ref' (fst tk)) ticks
    = existsb (fun tk => os_hit ref (fst tk)) ticks.
Proof.
  intros E. induction ticks as [|tk ticks IH]; simpl; auto.
  rewrite IH, (os_hit_trans ref ref') by exact E. reflexivity.
Qed.

Lemma logged_os_hit pos ref ref' latched (ticks : list (Vec * Vec)) :
  SE._trans ref' = SE._trans ref ->
  logged pos (os_hit ref') latched ticks = logged pos (os_hit ref) latched ticks.
Proof.
  intros E. revert latched. induction ticks as [|[q dq] ticks IH]; intros; simpl; auto.
  rewrite IH, (os_hit_trans ref ref') by exact E. reflexivity.
Qed.

(** After any number of calls the latch is set exactly when it was set
    before or one of the calls found the end-effector within the radius. *)
Lemma drive_os_latch ticks : forall c disk,
  TaskDynamics.external (sim_os._ds (fst (drive_os c disk ticks)))
    = TaskDynamics.external (sim_os._ds c)
      || existsb (fun tk => os_hit (sim_os._ref_pose c) (fst tk)) ticks.
Proof.
  induction ticks as [|[q dq] ticks IH]; intros c disk; cbn [drive_os existsb fst].
  - rewrite orb_false_r. reflexivity.
  - pose proof (action_os_effect c q dq disk) as E.
    destruct (sim_os.action c q dq disk) as [[tau c'] disk'].
    destruct E as (Et & _ & Ex & _).
    rewrite IH, Ex, (existsb_os_hit (sim_os._ref_pose c)) by exact Et.
    rewrite orb_assoc. reflexivity.
Qed.

(** The disk after any number of calls: the writer's file has gained the
    rows [logged] lists, every other file is as it was. *)
Lemma drive_os_disk ticks : forall c disk path,
  snd (drive_os c disk ticks) path
    = if String.eqb path (sim_os._writer c)
      then disk path
           ++ logged (fun q => SE._trans (framePose q)) (os_hit (sim_os._ref_pose c))
                (TaskDynamics.external (sim_os._ds c)) ticks
      else disk path.
Proof.
  induction ticks as [|[q dq] ticks IH]; intros c disk path; cbn [drive_os logged snd].
  - rewrite app_nil_r. destruct (String.eqb _ _); reflexivity.
  - pose proof (action_os_effect c q dq disk) as E.
    destruct (sim_os.action c q dq disk) as [[tau c'] disk'].
    destruct E as (Et & _ & Ex & Ew & _ & _ & Ed).
    rewrite IH, Ew, Ex, (logged_os_hit _ (sim_os._ref_pose c)) by exact Et.
    subst disk'. unfold FileManager.append.
    destruct (String.eqb path (sim_os._writer c)) eqn:Ep;
      destruct (TaskDynamics.external (sim_os._ds c)); simpl;
      rewrite ?Ep, <- ?app_assoc; reflexivity.
Qed.

Lemma logged_none pos hit (ticks : list (Vec * Vec)) :
  existsb (fun tk => hit (fst tk)) ticks = false -> logged pos hit false ticks = [].
Proof.
  induction ticks as [|[q dq] ticks IH]; simpl; auto.
  intros E. apply orb_false_elim in E as [E1 E2]. rewrite E1. auto.
Qed.

(** C9, as the code has it.  The controller's writer is set to the fixed
    file [demo_os_0.csv], whatever demo was selected.  A call of the
    controller entered with the external flag set appends one row, the
    current end-effector translation, after the rows of that file; a call
    entered with the flag clear leaves the disk alone.  So, from the
    constructor on, the file gains exactly the rows [logged] lists, in
    order, nothing is written while no tick has set the latch, and no row
    already in the file is lost or changed. *)
Theorem operation_space_log :
  forall (ref : SE.t),
    let c0 := sim_os.OperationSpaceController_new ref in
    let pos := fun q => SE._trans (framePose q) in
    sim_os._writer c0 = "demo_os_0.csv"%string /\
    (forall c q dq disk,
       let '(_, c', disk') := sim_os.action c q dq disk in
       sim_os._writer c' = sim_os._writer c /\
       disk' = if TaskDynamics.external (sim_os._ds c)
               then FileManager.append (sim_os._writer c) (pos q) disk
               else disk) /\
    (forall ticks disk path,
       snd (drive_os c0 disk ticks) path
         = if String.eqb path "demo_os_0.csv"
           then disk path ++ logged pos (os_hit ref) false ticks
           else disk path) /\
    (forall ticks disk path,
       existsb (fun tk => os_hit ref (fst tk)) ticks = false ->
       snd (drive_os c0 disk ticks) path = disk path).
Proof.
  intros ref c0 pos. split; [reflexivity|]. split; [|split].
  - intros c q dq disk. pose proof (action_os_effect c q dq disk) as E.
    destruct (sim_os.action c q dq disk) as [[tau c'] disk'].
    destruct E as (_ & _ & _ & Ew & _ & _ & Ed). auto.
  - intros. apply (drive_os_disk ticks c0 disk path).
  - intros ticks disk path E. rewrite (drive_os_disk ticks c0 disk path).
    cbn [sim_os._ref_pose sim_os._ds c0 sim_os.OperationSpaceController_new
         TaskDynamics.external TaskDynamics._external sim_os.setReference
         sim_os.TaskDynamics_new].
    rewrite logged_none by exact E. rewrite app_nil_r.
    destruct (String.eqb _ _); reflexivity.
Qed.

End OperationSpaceRuns.

(** ** The QP controllers *)

Section QPControllerFacts.
Context `{ControlLib} `{Libm} `{MultiBody} `{Requester} `{QuadraticControl}.

Lemma segment_middle (a b c : Vec) :
  segment (length a) (length b) (a ++ b ++ c) = b.
Proof.
  unfold segment. rewrite skipn_app, skipn_all, Nat.sub_diag. simpl.
  rewrite firstn_app, firstn_all, Nat.sub_diag. simpl. apply app_nil_r.
Qed.

Lemma segment_front (a c : Vec) : segment 0 (length a) (a ++ c) = a.
Proof.
  unfold segment. simpl. rewrite firstn_app, firstn_all, Nat.sub_diag.
  simpl. apply app_nil_r.
Qed.

(** A call of either QP controller leaves the external flag alone. *)
Lemma action_mb_external c q dq :
  TaskDynamics.external (id_modelbased._task (snd (id_modelbased.action c q dq)))
    = TaskDynamics.external (id_modelbased._task c).
Proof. unfold id_modelbased.action. cbn [snd id_modelbased._task]. apply update_mb_external. Qed.

Lemma action_mf_external c q dq :
  TaskDynamics.external (id_modelfree._task (snd (id_modelfree.action c q dq)))
    = TaskDynamics.external (id_modelfree._task c).
Proof.
  unfold id_modelfree.action, controllers.call.
  cbn [snd id_modelfree._task]. apply update_mf_external.
Qed.

(** C3.  The QP solution is read as [z = (qdd; tau; s)] with [nP], [nC] and
    [nS] entries.  The model-based controller ([nC = 7 > 0]) returns the
    entries [nP .. nP + nC - 1] of the solution, that is [tau].  The
    model-free controller ([nC = 0], so [z = (qdd; s)]) integrates [qdd] over
    its step [_dt] to [q* = q + _dt dq + 1/2 _dt^2 qdd] and returns the
    joint-space feedback towards [q*] with zero reference velocity,
    [K (q* - q) + D (0 - dq)], plus the gravity vector; [K] and [D] are the
    diagonal gains of the constructor and [_dt] its step, which a call
    leaves as they are. *)
Theorem qp_controller_torque :
  (forall (c : id_modelbased.IKController) (q dq : Vec),
     let state := R.Build q dq in
     let pose := SE.set_v (framePose q) (frameVelocity q dq) in
     let task := id_modelbased.update (id_modelbased._task c) pose in
     let pb := id_modelbased.problem state task (nonLinearEffects q dq) in
     let z := solve pb in
     (nP pb = 7%nat /\ nC pb = 7%nat /\ nS pb = 6%nat) /\
     fst (id_modelbased.action c q dq) = segment (nP pb) (nC pb) z /\
     (forall qdd tau s,
        z = qdd ++ tau ++ s -> length qdd = nP pb -> length tau = nC pb ->
        fst (id_modelbased.action c q dq) = tau)) /\
  (forall (c : id_modelfree.IDController) (q dq : Vec),
     let state := R.Build q dq in
     let pose := SE.set_v (framePose q) (frameVelocity q dq) in
     let task := id_modelfree.update (id_modelfree._task c) pose in
     let pb := id_modelfree.problem state task in
     let z := solve pb in
     let dt := id_modelfree._dt c in
     let K := controllers._k (id_modelfree._ctr c) in
     let D := controllers._c (id_modelfree._ctr c) in
     (nP pb = 7%nat /\ nC pb = 0%nat /\ nS pb = 6%nat) /\
     (forall qdd s,
        z = qdd ++ s -> length qdd = nP pb ->
        let q_star := vadd (vadd q (scale dt dq)) (scale (dbl 1 2 * dt * dt) qdd) in
        fst (id_modelfree.action c q dq)
          = vadd (vadd (mv K (vsub q_star q)) (mv D (vsub (Zero 7) dq)))
                 (gravityVector q)) /\
     (let c' := snd (id_modelfree.action c q dq) in
      id_modelfree._dt c' = dt /\
      controllers._k (id_modelfree._ctr c') = K /\
      controllers._c (id_modelfree._ctr c') = D)) /\
  (forall q0 dq0 target,
     let c0 := id_modelfree.IDController_new q0 dq0 target in
     id_modelfree._dt c0 = dbl 1 100 /\
     controllers._k (id_modelfree._ctr c0)
       = diagonal [dbl 950 1; dbl 950 1; dbl 950 1; dbl 950 1; dbl 500 1; dbl 500 1; dbl 50 1] /\
     controllers._c (id_modelfree._ctr c0)
       = diagonal [dbl 10 1; dbl 10 1; dbl 10 1; dbl 10 1; dbl 10 1; dbl 10 1; dbl 1 1]).
Proof.
  split; [|split].
  - intros c q dq state pose task pb z. split; [repeat split|]. split.
    + reflexivity.
    + intros qdd tau s Hz Hq Ht.
      change (fst (id_modelbased.action c q dq)) with (segment 7 7 z).
      rewrite Hz. change 7%nat with (nP pb) at 1. rewrite <- Hq.
      change 7%nat with (nC pb). rewrite <- Ht. apply segment_middle.
  - intros c q dq state pose task pb z dt K D. split; [repeat split|]. split.
    + intros qdd s Hz Hq q_star.
      unfold id_modelfree.action, controllers.call, controllers.update, controllers.law.
      cbn -[mv vadd vsub scale segment Zero Qcmult].
      assert (Hsol : solve (id_modelfree.problem (R.set_v (R.of_coords 7 q) dq)
                              (id_modelfree.update (id_modelfree._task c)
                                 (SE.set_v (framePose q) (frameVelocity q dq))))
                     = qdd ++ s) by exact Hz.
      rewrite Hsol. change (segment 0 7 (qdd ++ s)) with (segment 0 (nP pb) (qdd ++ s)).
      rewrite <- Hq, segment_front. reflexivity.
    + repeat split.
  - intros. repeat split.
Qed.

End QPControllerFacts.

(** ** The loops of the three drivers *)

Lemma elapsed_0 : elapsed 0 = 0.
Proof. apply Qc_is_canon. reflexivity. Qed.

Lemma elapsed_S n : elapsed n + dbl 1 1000 = elapsed (S n).
Proof.
  apply Qc_is_canon. unfold elapsed, dbl. cbn [this Qcplus Q2Qc].
  rewrite !Qred_correct. unfold Qeq, Qplus.
  cbn [Qnum Qden]. rewrite Nat2Z.inj_succ. lia.
Qed.

Lemma elapsed_over (n : nat) (N : Z) :
  (1000 * N < Z.of_nat n)%Z -> Qle_bool (elapsed n) (dbl N 1) = false.
Proof.
  intros Hn. destruct (Qle_bool (elapsed n) (dbl N 1)) eqn:E; [|reflexivity].
  apply Qle_bool_iff in E. unfold elapsed, dbl in E. cbn [this Q2Qc] in E.
  rewrite !Qred_correct in E. unfold Qle in E. cbn [Qnum Qden] in E. lia.
Qed.

Lemma paced_cons start d l :
  d = (start + ms 1)%Z -> paced d (ms 1) l -> paced start (ms 1) (d :: l).
Proof.
  intros -> Hl [|i] d' Hd; simpl in Hd.
  - injection Hd as <-. unfold ms. lia.
  - apply Hl in Hd. rewrite Hd. unfold ms. lia.
Qed.

Lemma paced_tail start d l :
  paced start (ms 1) (d :: l) -> d = (start + ms 1)%Z /\ paced d (ms 1) l.
Proof.
  intros Hp.
  assert (Hd : d = (start + ms 1)%Z) by (rewrite (Hp 0%nat d eq_refl); unfold ms; lia).
  split; [exact Hd|]. intros i d' Hi. rewrite (Hp (S i) d' Hi), Hd. unfold ms. lia.
Qed.

(** Deadlines one millisecond apart come in strictly increasing order. *)
Lemma paced_increasing l : forall start,
  paced start (ms 1) l -> StronglySorted Z.lt (start :: l).
Proof.
  induction l as [|d l IH]; intros start Hp.
  - constructor; constructor.
  - pose proof Hp as Hp'. apply paced_tail in Hp' as [Hd Hl].
    constructor; [apply IH; exact Hl|].
    apply Forall_forall. intros y Hy. apply In_nth_error in Hy as [i Hi].
    rewrite (Hp i y Hi). unfold ms. lia.
Qed.

Section OperationSpaceLoop.
Context `{ControlLib} `{MultiBody} `{Requester} `{Simulator}.

Lemma os_iteration_next offset now s s' :
  sim_os.iteration offset now s = inr s' ->
  sim_os.t s' = sim_os.t s + sim_os.dt /\
  sim_os.next s' = (sim_os.next s + ms 1)%Z.
Proof.
  unfold sim_os.iteration, step, sim_os.act.
  destruct (sim_os.action _ _ _ _) as [[tau c] d]. cbn -[within Qcplus].
  destruct (proceed _); cbn -[within Qcplus]; [|discriminate].
  destruct (within _ _ _); [discriminate|].
  intros E. injection E as <-. split; reflexivity.
Qed.

Lemma os_iteration_break offset now s e s' :
  sim_os.iteration offset now s = inl (e, s') ->
  e <> HorizonPassed /\
  left_as e (sim_os.t s') sim_os.T (sim_os.world s') sim_os.goal_radius (Map3 offset).
Proof.
  unfold sim_os.iteration, step, sim_os.act.
  destruct (sim_os.action _ _ _ _) as [[tau c] d]. cbn -[within Qcplus].
  destruct (proceed _) eqn:P; cbn -[within Qcplus].
  - destruct (within _ _ _) eqn:W; [|discriminate].
    intros E. injection E as <- <-. split; [discriminate|exact W].
  - intros E. injection E as <- <-. split; [discriminate|exact P].
Qed.

Lemma os_run_paced offset clock fuel : forall k s,
  paced (sim_os.next s) (ms 1)
    (sim_os.deadlines (snd (sim_os.run offset clock fuel k s))).
Proof.
  induction fuel as [|fuel IH]; intros k s; cbn [sim_os.run];
    destruct (Qle_bool (sim_os.t s) sim_os.T); try (intros [|?] ? ?; discriminate).
  destruct (sim_os.iteration offset (clock k) s) as [[e s']|s'] eqn:E;
    [intros [|?] ? ?; discriminate|].
  specialize (IH (S k) s').
  destruct (sim_os.run offset clock fuel (S k) s') as [[e s''] passes].
  apply os_iteration_next in E as [_ En].
  cbn [snd sim_os.deadlines map] in *. apply paced_cons; assumption.
Qed.

Lemma os_run_exit offset clock fuel : forall k s e s' passes,
  sim_os.run offset clock fuel k s = (Some e, s', passes) ->
  left_as e (sim_os.t s') sim_os.T (sim_os.world s') sim_os.goal_radius (Map3 offset).
Proof.
  induction fuel as [|fuel IH]; intros k s e s' passes; cbn [sim_os.run];
    destruct (Qle_bool (sim_os.t s) sim_os.T) eqn:C;
    try (intros E; inversion E; subst; exact C); try discriminate.
  destruct (sim_os.iteration offset (clock k) s) as [[e1 s1]|s1] eqn:E.
  - intros R. inversion R; subst. apply os_iteration_break in E as [_ E]. exact E.
  - specialize (IH (S k) s1).
    destruct (sim_os.run offset clock fuel (S k) s1) as [[e2 s2] passes2].
    intros R. inversion R; subst. apply (IH e s' passes2 eq_refl).
Qed.

Lemma os_run_terminates offset clock fuel : forall k s n,
  sim_os.t s = elapsed n -> (20001 <= Z.of_nat (fuel + n))%Z ->
  fst (fst (sim_os.run offset clock fuel k s)) <> None.
Proof.
  induction fuel as [|fuel IH]; intros k s n Ht Hn; cbn [sim_os.run].
  - rewrite Ht. unfold sim_os.T. rewrite elapsed_over by lia. discriminate.
  - destruct (Qle_bool (sim_os.t s) sim_os.T); [|discriminate].
    destruct (sim_os.iteration offset (clock k) s) as [[e1 s1]|s1] eqn:E;
      [discriminate|].
    apply os_iteration_next in E as [Et _].
    specialize (IH (S k) s1 (S n)).
    destruct (sim_os.run offset clock fuel (S k) s1) as [[e2 s2] passes2].
    cbn [fst] in *. apply IH; [|lia].
    rewrite Et, Ht. apply elapsed_S.
Qed.

End OperationSpaceLoop.

Section ModelBasedLoop.
Context `{ControlLib} `{Libm} `{MultiBody} `{Requester} `{QuadraticControl} `{Simulator}.

Lemma mb_iteration_next xDes now s s' :
  id_modelbased.iteration xDes now s = inr s' ->
  id_modelbased.t s' = id_modelbased.t s + id_modelbased.dt /\
  id_modelbased.next s' = (id_modelbased.next s + ms 1)%Z.
Proof.
  unfold id_modelbased.iteration, step.
  destruct (id_modelbased.action _ _ _) as [tau c]. cbn -[within Qcplus].
  destruct (proceed _); cbn -[within Qcplus]; [|discriminate].
  destruct (within _ _ _ && id_modelbased.enter s);
    intros E; injection E as <-; split; reflexivity.
Qed.

Lemma mb_iteration_break xDes now s e s' :
  id_modelbased.iteration xDes now s = inl (e, s') ->
  e = EngineStopped /\ proceed (id_modelbased.world s') = false.
Proof.
  unfold id_modelbased.iteration, step.
  destruct (id_modelbased.action _ _ _) as [tau c]. cbn -[within Qcplus].
  destruct (proceed _) eqn:P; cbn -[within Qcplus].
  - destruct (within _ _ _ && id_modelbased.enter s); discriminate.
  - intros E. inversion E; subst. split; [reflexivity|exact P].
Qed.

(** One pass sets the latch when its goal test fires, and only then; the
    loop's [enter] stays the negation of the latch. *)
Lemma mb_iteration_latch xDes now s s' :
  id_modelbased.iteration xDes now s = inr s' ->
  id_modelbased.enter s = negb (mb_latched s) ->
  mb_latched s' = mb_latched s || mb_hit xDes s' /\
  id_modelbased.enter s' = negb (mb_latched s').
Proof.
  unfold id_modelbased.iteration, step, mb_latched, mb_hit.
  pose proof (action_mb_external (id_modelbased.controller s)
                (state (id_modelbased.world s)) (velocity (id_modelbased.world s))) as Ex.
  destruct (id_modelbased.action _ _ _) as [tau c]. cbn [snd] in Ex.
  cbn -[within Qcplus].
  destruct (proceed _); cbn -[within Qcplus]; [|discriminate].
  intros E En. rewrite En in E. rewrite <- Ex in *.
  destruct (within _ _ _) eqn:W;
    destruct (TaskDynamics.external (id_modelbased._task c)) eqn:L;
    cbn -[within Qcplus] in E; injection E as <-;
    cbn -[within Qcplus]; rewrite ?W, ?L; auto.
Qed.

Lemma mb_run_paced xDes clock fuel : forall k s,
  paced (id_modelbased.next s) (ms 1)
    (id_modelbased.deadlines (snd (id_modelbased.run xDes clock fuel k s))).
Proof.
  induction fuel as [|fuel IH]; intros k s; cbn [id_modelbased.run];
    destruct (Qle_bool (id_modelbased.t s) id_modelbased.T); try (intros [|?] ? ?; discriminate).
  destruct (id_modelbased.iteration xDes (clock k) s) as [[e s']|s'] eqn:E;
    [intros [|?] ? ?; discriminate|].
  specialize (IH (S k) s').
  destruct (id_modelbased.run xDes clock fuel (S k) s') as [[e s''] passes].
  apply mb_iteration_next in E as [_ En].
  cbn [snd id_modelbased.deadlines map] in *. apply paced_cons; assumption.
Qed.

Lemma mb_run_exit xDes clock fuel : forall k s e s' passes,
  id_modelbased.run xDes clock fuel k s = (Some e, s', passes) ->
  (e = HorizonPassed /\ Qle_bool (id_modelbased.t s') id_modelbased.T = false) \/
  (e = EngineStopped /\ proceed (id_modelbased.world s') = false).
Proof.
  induction fuel as [|fuel IH]; intros k s e s' passes; cbn [id_modelbased.run];
    destruct (Qle_bool (id_modelbased.t s) id_modelbased.T) eqn:C;
    try (intros E; inversion E; subst; left; split; [reflexivity|exact C]);
    try discriminate.
  destruct (id_modelbased.iteration xDes (clock k) s) as [[e1 s1]|s1] eqn:E.
  - intros R. inversion R; subst. right. apply mb_iteration_break in E. exact E.
  - specialize (IH (S k) s1).
    destruct (id_modelbased.run xDes clock fuel (S k) s1) as [[e2 s2] passes2].
    intros R. inversion R; subst. apply (IH e s' passes2 eq_refl).
Qed.

Lemma mb_run_terminates xDes clock fuel : forall k s n,
  id_modelbased.t s = elapsed n -> (40001 <= Z.of_nat (fuel + n))%Z ->
  fst (fst (id_modelbased.run xDes clock fuel k s)) <> None.
Proof.
  induction fuel as [|fuel IH]; intros k s n Ht Hn; cbn [id_modelbased.run].
  - rewrite Ht. unfold id_modelbased.T. rewrite elapsed_over by lia. discriminate.
  - destruct (Qle_bool (id_modelbased.t s) id_modelbased.T); [|discriminate].
    destruct (id_modelbased.iteration xDes (clock k) s) as [[e1 s1]|s1] eqn:E;
      [discriminate|].
    apply mb_iteration_next in E as [Et _].
    specialize (IH (S k) s1 (S n)).
    destruct (id_modelbased.run xDes clock fuel (S k) s1) as [[e2 s2] passes2].
    cbn [fst] in *. apply IH; [|lia].
    rewrite Et, Ht. apply elapsed_S.
Qed.

(** At every [sleep_until] of a run the latch is set exactly when it was set
    at the start or the goal test fired in a pass up to this one. *)
Lemma mb_run_latch xDes clock fuel : forall k s,
  id_modelbased.enter s = negb (mb_latched s) ->
  forall i s_i,
    nth_error (snd (id_modelbased.run xDes clock fuel k s)) i = Some s_i ->
    mb_latched s_i
      = mb_latched s
        || existsb (mb_hit xDes) (firstn (S i) (snd (id_modelbased.run xDes clock fuel k s))).
Proof.
  induction fuel as [|fuel IH]; intros k s En i s_i; cbn [id_modelbased.run];
    destruct (Qle_bool (id_modelbased.t s) id_modelbased.T);
    try (destruct i; discriminate).
  destruct (id_modelbased.iteration xDes (clock k) s) as [[e s']|s'] eqn:E;
    [destruct i; discriminate|].
  apply mb_iteration_latch in E as [El En']; [|exact En].
  specialize (IH (S k) s' En').
  destruct (id_modelbased.run xDes clock fuel (S k) s') as [[e s''] passes].
  cbn [snd] in *. destruct i as [|i]; cbn [nth_error].
  - intros E. injection E as <-. cbn [firstn existsb].
    rewrite El, orb_false_r. reflexivity.
  - intros E. rewrite (IH i s_i E), El.
    change (firstn (S (S i)) (s' :: passes)) with (s' :: firstn (S i) passes).
    cbn [existsb]. rewrite orb_assoc. reflexivity.
Qed.

End ModelBasedLoop.

Section ModelFreeLoop.
Context `{ControlLib} `{Libm} `{MultiBody} `{Requester} `{QuadraticControl} `{Simulator}.

Lemma mf_iteration_next xDes now s s' :
  id_modelfree.iteration xDes now s = inr s' ->
  id_modelfree.t s' = id_modelfree.t s + id_modelfree.dt /\
  id_modelfree.next s' = (id_modelfree.next s + ms 1)%Z.
Proof.
  unfold id_modelfree.iteration, step.
  destruct (id_modelfree.action _ _ _) as [tau c]. cbn -[within Qcplus].
  destruct (proceed _); cbn -[within Qcplus]; [|discriminate].
  destruct (within _ _ _ && id_modelfree.enter s);
    intros E; injection E as <-; split; reflexivity.
Qed.

Lemma mf_iteration_break xDes now s e s' :
  id_modelfree.iteration xDes now s = inl (e, s') ->
  e = EngineStopped /\ proceed (id_modelfree.world s') = false.
Proof.
  unfold id_modelfree.iteration, step.
  destruct (id_modelfree.action _ _ _) as [tau c]. cbn -[within Qcplus].
  destruct (proceed _) eqn:P; cbn -[within Qcplus].
  - destruct (within _ _ _ && id_modelfree.enter s); discriminate.
  - intros E. inversion E; subst. split; [reflexivity|exact P].
Qed.

(** One pass sets the latch when its goal test fires, and only then; the
    loop's [enter] stays the negation of the latch. *)
Lemma mf_iteration_latch xDes now s s' :
  id_modelfree.iteration xDes now s = inr s' ->
  id_modelfree.enter s = negb (mf_latched s) ->
  mf_latched s' = mf_latched s || mf_hit xDes s' /\
  id_modelfree.enter s' = negb (mf_latched s').
Proof.
  unfold id_modelfree.iteration, step, mf_latched, mf_hit.
  pose proof (action_mf_external (id_modelfree.controller s)
                (state (id_modelfree.world s)) (velocity (id_modelfree.world s))) as Ex.
  destruct (id_modelfree.action _ _ _) as [tau c]. cbn [snd] in Ex.
  cbn -[within Qcplus].
  destruct (proceed _); cbn -[within Qcplus]; [|discriminate].
  intros E En. rewrite En in E. rewrite <- Ex in *.
  destruct (within _ _ _) eqn:W;
    destruct (TaskDynamics.external (id_modelfree._task c)) eqn:L;
    cbn -[within Qcplus] in E; injection E as <-;
    cbn -[within Qcplus]; rewrite ?W, ?L; auto.
Qed.

Lemma mf_run_paced xDes clock fuel : forall k s,
  paced (id_modelfree.next s) (ms 1)
    (id_modelfree.deadlines (snd (id_modelfree.run xDes clock fuel k s))).
Proof.
  induction fuel as [|fuel IH]; intros k s; cbn [id_modelfree.run];
    destruct (Qle_bool (id_modelfree.t s) id_modelfree.T); try (intros [|?] ? ?; discriminate).
  destruct (id_modelfree.iteration xDes (clock k) s) as [[e s']|s'] eqn:E;
    [intros [|?] ? ?; discriminate|].
  specialize (IH (S k) s').
  destruct (id_modelfree.run xDes clock fuel (S k) s') as [[e s''] passes].
  apply mf_iteration_next in E as [_ En].
  cbn [snd id_modelfree.deadlines map] in *. apply paced_cons; assumption.
Qed.

Lemma mf_run_exit xDes clock fuel : forall k s e s' passes,
  id_modelfree.run xDes clock fuel k s = (Some e, s', passes) ->
  (e = HorizonPassed /\ Qle_bool (id_modelfree.t s') id_modelfree.T = false) \/
  (e = EngineStopped /\ proceed (id_modelfree.world s') = false).
Proof.
  induction fuel as [|fuel IH]; intros k s e s' passes; cbn [id_modelfree.run];
    destruct (Qle_bool (id_modelfree.t s) id_modelfree.T) eqn:C;
    try (intros E; inversion E; subst; left; split; [reflexivity|exact C]);
    try discriminate.
  destruct (id_modelfree.iteration xDes (clock k) s) as [[e1 s1]|s1] eqn:E.
  - intros R. inversion R; subst. right. apply mf_iteration_break in E. exact E.
  - specialize (IH (S k) s1).
    destruct (id_modelfree.run xDes clock fuel (S k) s1) as [[e2 s2] passes2].
    intros R. inversion R; subst. apply (IH e s' passes2 eq_refl).
Qed.

Lemma mf_run_terminates xDes clock fuel : forall k s n,
  id_modelfree.t s = elapsed n -> (40001 <= Z.of_nat (fuel + n))%Z ->
  fst (fst (id_modelfree.run xDes clock fuel k s)) <> None.
Proof.
  induction fuel as [|fuel IH]; intros k s n Ht Hn; cbn [id_modelfree.run].
  - rewrite Ht. unfold id_modelfree.T. rewrite elapsed_over by lia. discriminate.
  - destruct (Qle_bool (id_modelfree.t s) id_modelfree.T); [|discriminate].
    destruct (id_modelfree.iteration xDes (clock k) s) as [[e1 s1]|s1] eqn:E;
      [discriminate|].
    apply mf_iteration_next in E as [Et _].
    specialize (IH (S k) s1 (S n)).
    destruct (id_modelfree.run xDes clock fuel (S k) s1) as [[e2 s2] passes2].
    cbn [fst] in *. apply IH; [|lia].
    rewrite Et, Ht. apply elapsed_S.
Qed.

(** At every [sleep_until] of a run the latch is set exactly when it was set
    at the start or the goal test fired in a pass up to this one. *)
Lemma mf_run_latch xDes clock fuel : forall k s,
  id_modelfree.enter s = negb (mf_latched s) ->
  forall i s_i,
    nth_error (snd (id_modelfree.run xDes clock fuel k s)) i = Some s_i ->
    mf_latched s_i
      = mf_latched s
        || existsb (mf_hit xDes) (firstn (S i) (snd (id_modelfree.run xDes clock fuel k s))).
Proof.
  induction fuel as [|fuel IH]; intros k s En i s_i; cbn [id_modelfree.run];
    destruct (Qle_bool (id_modelfree.t s) id_modelfree.T);
    try (destruct i; discriminate).
  destruct (id_modelfree.iteration xDes (clock k) s) as [[e s']|s'] eqn:E;
    [destruct i; discriminate|].
  apply mf_iteration_latch in E as [El En']; [|exact En].
  specialize (IH (S k) s' En').
  destruct (id_modelfree.run xDes clock fuel (S k) s') as [[e s''] passes].
  cbn [snd] in *. destruct i as [|i]; cbn [nth_error].
  - intros E. injection E as <-. cbn [firstn existsb].
    rewrite El, orb_false_r. reflexivity.
  - intros E. rewrite (IH i s_i E), El.
    change (firstn (S (S i)) (s' :: passes)) with (s' :: firstn (S i) passes).
    cbn [existsb]. rewrite orb_assoc. reflexivity.
Qed.

End ModelFreeLoop.

(** ** The claims about the runs *)

Section Runs.
Context `{ControlLib} `{Libm} `{MultiBody} `{Requester} `{QuadraticControl} `{Simulator}.

(** C1.  The external flag is a one-way latch.  In the operation-space
    driver the constructor leaves it false, the controller's [action] sets it
    at the first tick that finds the end-effector translation within 0.05 of
    the reference translation, and it stays set: after any ticks it is set
    exactly when one of them passed that test.  In the two QP drivers the
    constructor leaves it false and the loop sets it, with radius 0.01, at
    the first pass whose test fires: at every [sleep_until] it is set exactly
    when a pass up to this one passed the test.  No call of a controller
    clears a set flag. *)
Theorem external_latch_one_way :
  (sim_os.latch_radius = dbl 5 100 /\
   forall (ref : SE.t),
     let c0 := sim_os.OperationSpaceController_new ref in
     TaskDynamics.external (sim_os._ds c0) = false /\
     (forall ticks disk,
        TaskDynamics.external (sim_os._ds (fst (drive_os c0 disk ticks)))
          = existsb (fun tk => os_hit ref (fst tk)) ticks) /\
     (forall c q dq disk,
        TaskDynamics.external (sim_os._ds c) = true ->
        TaskDynamics.external (sim_os._ds (snd (fst (sim_os.action c q dq disk)))) = true)) /\
  (id_modelbased.latch_radius = dbl 1 100 /\
   forall q0 dq0 target xDes clock start w fuel,
     let s0 := id_modelbased.Loop_new start w (id_modelbased.IKController_new q0 dq0 target) in
     let passes := snd (id_modelbased.run xDes clock fuel 0 s0) in
     mb_latched s0 = false /\
     (forall i s_i,
        nth_error passes i = Some s_i ->
        mb_latched s_i = existsb (mb_hit xDes) (firstn (S i) passes)) /\
     (forall c q dq,
        TaskDynamics.external (id_modelbased._task c) = true ->
        TaskDynamics.external (id_modelbased._task (snd (id_modelbased.action c q dq))) = true)) /\
  (id_modelfree.latch_radius = dbl 1 100 /\
   forall q0 dq0 target xDes clock start w fuel,
     let s0 := id_modelfree.Loop_new start w (id_modelfree.IDController_new q0 dq0 target) in
     let passes := snd (id_modelfree.run xDes clock fuel 0 s0) in
     mf_latched s0 = false /\
     (forall i s_i,
        nth_error passes i = Some s_i ->
        mf_latched s_i = existsb (mf_hit xDes) (firstn (S i) passes)) /\
     (forall c q dq,
        TaskDynamics.external (id_modelfree._task c) = true ->
        TaskDynamics.external (id_modelfree._task (snd (id_modelfree.action c q dq))) = true)).
Proof.
  split; [|split]; (split; [reflexivity|]).
  - intros ref c0. split; [reflexivity|]. split.
    + intros ticks disk. rewrite drive_os_latch. reflexivity.
    + intros c q dq disk E. pose proof (action_os_effect c q dq disk) as A.
      destruct (sim_os.action c q dq disk) as [[tau c'] disk'].
      destruct A as (_ & _ & A & _). cbn [fst snd]. rewrite A, E. reflexivity.
  - intros q0 dq0 target xDes clock start w fuel s0 passes.
    assert (L0 : mb_latched s0 = false).
    { unfold mb_latched, s0, id_modelbased.Loop_new, id_modelbased.IKController_new.
      cbn [id_modelbased.controller id_modelbased._task].
      rewrite update_mb_external. reflexivity. }
    split; [exact L0|]. split.
    + intros i s_i E.
      rewrite (mb_run_latch xDes clock fuel 0%nat s0) with (i := i) (s_i := s_i).
      * rewrite L0. reflexivity.
      * rewrite L0. reflexivity.
      * exact E.
    + intros c q dq E. rewrite action_mb_external. exact E.
  - intros q0 dq0 target xDes clock start w fuel s0 passes.
    assert (L0 : mf_latched s0 = false).
    { unfold mf_latched, s0, id_modelfree.Loop_new, id_modelfree.IDController_new.
      cbn [id_modelfree.controller id_modelfree._task].
      rewrite update_mf_external. reflexivity. }
    split; [exact L0|]. split.
    + intros i s_i E.
      rewrite (mf_run_latch xDes clock fuel 0%nat s0) with (i := i) (s_i := s_i).
      * rewrite L0. reflexivity.
      * rewrite L0. reflexivity.
      * exact E.
    + intros c q dq E. rewrite action_mf_external. exact E.
Qed.

(** A pass of the operation-space loop that the engine lets go on and that
    ends away from the offset is not a [break]: it adds one millisecond to
    [next], sleeps until it, and the run goes on from there. *)
Lemma os_pass_sleeps offset clock fuel k s :
  Qle_bool (sim_os.t s) sim_os.T = true ->
  let r := step sim_os.act (sim_os.world s) (sim_os.controller s, sim_os.disk s)
             (step_index (sim_os.t s) sim_os.dt) in
  fst (fst r) = true ->
  within sim_os.goal_radius (framePosition (state (snd (fst r)))) (Map3 offset) = false ->
  exists s',
    sim_os.iteration offset (clock k) s = inr s' /\
    sim_os.next s' = (sim_os.next s + ms 1)%Z /\
    sim_os.deadlines (snd (sim_os.run offset clock (S fuel) k s))
      = (sim_os.next s + ms 1)%Z
        :: sim_os.deadlines (snd (sim_os.run offset clock fuel (S k) s')).
Proof.
  intros C r P W. cbn [sim_os.run]. rewrite C.
  unfold sim_os.iteration. unfold r, step, sim_os.act in *. clear r.
  destruct (sim_os.action _ _ _ _) as [[tau c] d]. cbn -[within Qcplus] in *.
  rewrite P. cbn -[within Qcplus sim_os.run]. rewrite W.
  eexists. split; [reflexivity|]. split; [reflexivity|].
  match goal with |- context [sim_os.run ?a ?b ?c ?d ?e] =>
    destruct (sim_os.run a b c d e) as [[e1 s1] passes] end.
  reflexivity.
Qed.

(** A pass of the loop that the engine lets go on is not a [break]: it
    adds one millisecond to [next], sleeps until it, and the run goes on
    from there. *)
Lemma mb_pass_sleeps xDes clock fuel k s :
  Qle_bool (id_modelbased.t s) id_modelbased.T = true ->
  fst (fst (step id_modelbased.action (id_modelbased.world s) (id_modelbased.controller s)
              (step_index (id_modelbased.t s) id_modelbased.dt))) = true ->
  exists s',
    id_modelbased.iteration xDes (clock k) s = inr s' /\
    id_modelbased.next s' = (id_modelbased.next s + ms 1)%Z /\
    id_modelbased.deadlines (snd (id_modelbased.run xDes clock (S fuel) k s))
      = (id_modelbased.next s + ms 1)%Z
        :: id_modelbased.deadlines (snd (id_modelbased.run xDes clock fuel (S k) s')).
Proof.
  intros C P. cbn [id_modelbased.run]. rewrite C.
  unfold id_modelbased.iteration. unfold step in *.
  destruct (id_modelbased.action _ _ _) as [tau c]. cbn -[within Qcplus] in *.
  rewrite P. cbn -[within Qcplus id_modelbased.run].
  destruct (within _ _ _ && id_modelbased.enter s); eexists;
    (split; [reflexivity|]); (split; [reflexivity|]);
    match goal with |- context [id_modelbased.run ?a ?b ?c ?d ?e] =>
      destruct (id_modelbased.run a b c d e) as [[e1 s1] passes] end; reflexivity.
Qed.

(** A pass of the loop that the engine lets go on is not a [break]: it
    adds one millisecond to [next], sleeps until it, and the run goes on
    from there. *)
Lemma mf_pass_sleeps xDes clock fuel k s :
  Qle_bool (id_modelfree.t s) id_modelfree.T = true ->
  fst (fst (step id_modelfree.action (id_modelfree.world s) (id_modelfree.controller s)
              (step_index (id_modelfree.t s) id_modelfree.dt))) = true ->
  exists s',
    id_modelfree.iteration xDes (clock k) s = inr s' /\
    id_modelfree.next s' = (id_modelfree.next s + ms 1)%Z /\
    id_modelfree.deadlines (snd (id_modelfree.run xDes clock (S fuel) k s))
      = (id_modelfree.next s + ms 1)%Z
        :: id_modelfree.deadlines (snd (id_modelfree.run xDes clock fuel (S k) s')).
Proof.
  intros C P. cbn [id_modelfree.run]. rewrite C.
  unfold id_modelfree.iteration. unfold step in *.
  destruct (id_modelfree.action _ _ _) as [tau c]. cbn -[within Qcplus] in *.
  rewrite P. cbn -[within Qcplus id_modelfree.run].
  destruct (within _ _ _ && id_modelfree.enter s); eexists;
    (split; [reflexivity|]); (split; [reflexivity|]);
    match goal with |- context [id_modelfree.run ?a ?b ?c ?d ?e] =>
      destruct (id_modelfree.run a b c d e) as [[e1 s1] passes] end; reflexivity.
Qed.

(** C6.  In each of the three loops the deadlines handed to [sleep_until]
    follow the loop's initial [next] exactly one millisecond apart, pass
    after pass, so they are strictly increasing: none is repeated and none
    comes before an earlier one.  And the deadlines are there: every pass
    that is entered ([t <= T]) and not left by a [break] (the engine goes on
    and, in the operation-space loop, the end-effector is away from the
    offset) adds one millisecond to [next], hands it to [sleep_until], and
    the run goes on with the next pass. *)
Theorem next_deadline_strictly_increasing :
  (forall offset clock fuel k s,
     let ds := sim_os.deadlines (snd (sim_os.run offset clock fuel k s)) in
     paced (sim_os.next s) (ms 1) ds /\ StronglySorted Z.lt (sim_os.next s :: ds)) /\
  (forall offset clock fuel k s,
     Qle_bool (sim_os.t s) sim_os.T = true ->
     let r := step sim_os.act (sim_os.world s) (sim_os.controller s, sim_os.disk s)
                (step_index (sim_os.t s) sim_os.dt) in
     fst (fst r) = true ->
     within sim_os.goal_radius (framePosition (state (snd (fst r)))) (Map3 offset) = false ->
     exists s',
       sim_os.iteration offset (clock k) s = inr s' /\
       sim_os.next s' = (sim_os.next s + ms 1)%Z /\
       sim_os.deadlines (snd (sim_os.run offset clock (S fuel) k s))
         = (sim_os.next s + ms 1)%Z
           :: sim_os.deadlines (snd (sim_os.run offset clock fuel (S k) s'))) /\
  (forall xDes clock fuel k s,
     let ds := id_modelbased.deadlines (snd (id_modelbased.run xDes clock fuel k s)) in
     paced (id_modelbased.next s) (ms 1) ds /\
     StronglySorted Z.lt (id_modelbased.next s :: ds)) /\
  (forall xDes clock fuel k s,
     Qle_bool (id_modelbased.t s) id_modelbased.T = true ->
     fst (fst (step id_modelbased.action (id_modelbased.world s) (id_modelbased.controller s)
                 (step_index (id_modelbased.t s) id_modelbased.dt))) = true ->
     exists s',
       id_modelbased.iteration xDes (clock k) s = inr s' /\
       id_modelbased.next s' = (id_modelbased.next s + ms 1)%Z /\
       id_modelbased.deadlines (snd (id_modelbased.run xDes clock (S fuel) k s))
         = (id_modelbased.next s + ms 1)%Z
           :: id_modelbased.deadlines (snd (id_modelbased.run xDes clock fuel (S k) s'))) /\
  (forall xDes clock fuel k s,
     let ds := id_modelfree.deadlines (snd (id_modelfree.run xDes clock fuel k s)) in
     paced (id_modelfree.next s) (ms 1) ds /\
     StronglySorted Z.lt (id_modelfree.next s :: ds)) /\
  (forall xDes clock fuel k s,
     Qle_bool (id_modelfree.t s) id_modelfree.T = true ->
     fst (fst (step id_modelfree.action (id_modelfree.world s) (id_modelfree.controller s)
                 (step_index (id_modelfree.t s) id_modelfree.dt))) = true ->
     exists s',
       id_modelfree.iteration xDes (clock k) s = inr s' /\
       id_modelfree.next s' = (id_modelfree.next s + ms 1)%Z /\
       id_modelfree.deadlines (snd (id_modelfree.run xDes clock (S fuel) k s))
         = (id_modelfree.next s + ms 1)%Z
           :: id_modelfree.deadlines (snd (id_modelfree.run xDes clock fuel (S k) s'))).
Proof.
  split; [|split; [|split; [|split; [|split]]]].
  - intros a clock fuel k s ds. pose proof (os_run_paced a clock fuel k s) as P.
    split; [exact P|apply paced_increasing; exact P].
  - intros a clock fuel k s. apply os_pass_sleeps.
  - intros a clock fuel k s ds. pose proof (mb_run_paced a clock fuel k s) as P.
    split; [exact P|apply paced_increasing; exact P].
  - intros a clock fuel k s. apply mb_pass_sleeps.
  - intros a clock fuel k s ds. pose proof (mf_run_paced a clock fuel k s) as P.
    split; [exact P|apply paced_increasing; exact P].
  - intros a clock fuel k s. apply mf_pass_sleeps.
Qed.

(** C7, as the code has it.  Each loop is left after at most T / 1 ms + 1
    passes (20001 for the operation-space driver, 40001 for the QP drivers):
    with that much fuel the run ends by itself.  It is left because the
    simulated time has passed the horizon, or because the engine's step
    returned false, or, in the operation-space driver only, because the
    end-effector frame position is within 0.05 of the offset read from the
    demo's YAML file (the point the trajectories are shifted by), which is
    not the reference translation of the latch. *)
Theorem loops_terminate :
  (forall offset clock start w c d fuel,
     (20001 <= Z.of_nat fuel)%Z ->
     exists e s' passes,
       sim_os.run offset clock fuel 0 (sim_os.Loop_new start w c d) = (Some e, s', passes) /\
       left_as e (sim_os.t s') sim_os.T (sim_os.world s') (dbl 5 100) (Map3 offset)) /\
  (forall xDes clock start w c fuel,
     (40001 <= Z.of_nat fuel)%Z ->
     exists e s' passes,
       id_modelbased.run xDes clock fuel 0 (id_modelbased.Loop_new start w c)
         = (Some e, s', passes) /\
       ((e = HorizonPassed /\ Qle_bool (id_modelbased.t s') id_modelbased.T = false) \/
        (e = EngineStopped /\ proceed (id_modelbased.world s') = false))) /\
  (forall xDes clock start w c fuel,
     (40001 <= Z.of_nat fuel)%Z ->
     exists e s' passes,
       id_modelfree.run xDes clock fuel 0 (id_modelfree.Loop_new start w c)
         = (Some e, s', passes) /\
       ((e = HorizonPassed /\ Qle_bool (id_modelfree.t s') id_modelfree.T = false) \/
        (e = EngineStopped /\ proceed (id_modelfree.world s') = false))).
Proof.
  split; [|split].
  - intros offset clock start w c d fuel Hf.
    pose proof (os_run_terminates offset clock fuel 0%nat
                  (sim_os.Loop_new start w c d) 0%nat) as Ht.
    destruct (sim_os.run offset clock fuel 0 (sim_os.Loop_new start w c d))
      as [[[e|] s'] passes] eqn:R.
    + exists e, s', passes. split; [reflexivity|].
      apply (os_run_exit offset clock fuel _ _ _ _ _ R).
    + exfalso. apply Ht; [symmetry; apply elapsed_0|lia|reflexivity].
  - intros xDes clock start w c fuel Hf.
    pose proof (mb_run_terminates xDes clock fuel 0%nat
                  (id_modelbased.Loop_new start w c) 0%nat) as Ht.
    destruct (id_modelbased.run xDes clock fuel 0 (id_modelbased.Loop_new start w c))
      as [[[e|] s'] passes] eqn:R.
    + exists e, s', passes. split; [reflexivity|].
      apply (mb_run_exit xDes clock fuel _ _ _ _ _ R).
    + exfalso. apply Ht; [symmetry; apply elapsed_0|lia|reflexivity].
  - intros xDes clock start w c fuel Hf.
    pose proof (mf_run_terminates xDes clock fuel 0%nat
                  (id_modelfree.Loop_new start w c) 0%nat) as Ht.
    destruct (id_modelfree.run xDes clock fuel 0 (id_modelfree.Loop_new start w c))
      as [[[e|] s'] passes] eqn:R.
    + exists e, s', passes. split; [reflexivity|].
      apply (mf_run_exit xDes clock fuel _ _ _ _ _ R).
    + exfalso. apply Ht; [symmetry; apply elapsed_0|lia|reflexivity].
Qed.

End Runs.

(** ** Start-up: the offset and the trajectories *)

(** Every trajectory a driver shows is one it read, with the first three
    entries of the offset added to each of its rows. *)
Lemma load_trajectories_shifted `{FileSystem} colour demo offset count : forall first shown,
  load_trajectories colour demo offset first count = Some shown ->
  length shown = count /\
  Forall (fun mc => exists m, fst mc = map (fun row => vadd row (Map3 offset)) m) shown.
Proof.
  induction count as [|count IH]; intros first shown; cbn [load_trajectories].
  - intros E. injection E as <-. split; [reflexivity|constructor].
  - destruct (read _) as [m|]; cbn [bind]; [|discriminate].
    destruct (load_trajectories colour demo offset (S first) count) as [rest|] eqn:E;
      cbn [bind]; [|discriminate].
    intros R. injection R as <-. destruct (IH (S first) rest E) as [Hl Hs].
    split; [simpl; congruence|]. constructor; [exists m; reflexivity|exact Hs].
Qed.

(** C8 at a demo whose YAML file holds the offset under [dynamics.offset],
    where the two QP drivers look for it: they read the offset (1, 0, 0) and
    show the trajectory with every row shifted by it, while the
    operation-space driver, which asks the same file for a top-level
    [offset], finds none and stops before loading any trajectory.  With the
    offset at the top level the operation-space driver loads its seven
    trajectories and the QP drivers stop. *)
Theorem offset_key_of_each_driver :
  let shifted := [[dbl 6 1; 0; 0]; [dbl 4 1; 0; 0]; [dbl 1 1; 0; 0]] in
  @sim_os.load Gantry.files ["sim_os"%string] = None /\
  @id_modelbased.load Gantry.files ["id_modelbased"%string]
    = Some ([dbl 1 1; 0; 0], [(shifted, "green"%string)]) /\
  @id_modelfree.load Gantry.files ["id_modelfree"%string]
    = Some ([dbl 1 1; 0; 0], [(shifted, "green"%string)]) /\
  @sim_os.load Gantry.files_top_level ["sim_os"%string]
    = Some ([dbl 1 1; 0; 0],
            map (fun colour => (shifted, colour))
              ["blue"; "blue"; "blue"; "red"; "red"; "red"; "red"]%string) /\
  @id_modelbased.load Gantry.files_top_level ["id_modelbased"%string] = None /\
  @id_modelfree.load Gantry.files_top_level ["id_modelfree"%string] = None.
Proof. repeat split; vm_compute; reflexivity. Qed.

(* ================================================================== *)
(** * The drivers on the gantry                                        *)
(* ================================================================== *)

Module OnGantry.
Import Gantry.

(** The announced torque at rest fails on the gantry.  The reference pose is at rest and so are the
    joints, yet the torque is not the stiffness term: the damping gain acts
    on the task-dynamics output that the controller writes into the
    reference twist. *)
Lemma damping_acts_at_rest :
  SE._v goal = Zero 6 /\
  fst (fst (sim_os.action os0 rest rest empty_disk)) = [dbl 600 1; 0; 0; 0; 0; 0; 0] /\
  stiffness_torque os0 rest = Zero 7 /\
  fst (fst (sim_os.action os0 rest rest empty_disk)) <> stiffness_torque os0 rest.
Proof.
  assert (A : fst (fst (sim_os.action os0 rest rest empty_disk))
              = [dbl 600 1; 0; 0; 0; 0; 0; 0]) by (vm_compute; reflexivity).
  assert (B : stiffness_torque os0 rest = Zero 7) by (vm_compute; reflexivity).
  repeat split; try assumption. rewrite A, B. discriminate.
Qed.

(** The announced reasons for leaving the loop fail on the gantry.  With the offset (1, 0, 0) and the first
    trajectory row (5, 0, 0) the reference translation is (6, 0, 0); the
    end-effector reaches (1, 0, 0) in the first pass and the loop is left at
    once, 1 ms into the run, the engine willing to go on, five units away
    from the reference translation. *)
Lemma goal_break_away_from_reference :
  let offset := [dbl 1 1; 0; 0] in
  let r := sim_os.run offset still_clock 3 0
             (sim_os.Loop_new 0%Z to_offset os0 empty_disk) in
  let s' := snd (fst r) in
  @sim_os.load files_top_level ["sim_os"%string]
    = Some (offset, map (fun colour => ([[dbl 6 1; 0; 0]; [dbl 4 1; 0; 0]; [dbl 1 1; 0; 0]], colour))
                        ["blue"; "blue"; "blue"; "red"; "red"; "red"; "red"]%string) /\
  sim_os.ref_pose [([[dbl 6 1; 0; 0]; [dbl 4 1; 0; 0]; [dbl 1 1; 0; 0]], "blue"%string)] = goal /\
  SE._trans (sim_os._ref_pose (sim_os.controller s')) = [dbl 6 1; 0; 0] /\
  fst (fst r) = Some GoalReached /\
  sim_os.t s' = dbl 1 1000 /\
  ~ left_as_announced (sim_os.t s') sim_os.T (sim_os.world s') (dbl 5 100)
      (SE._trans (sim_os._ref_pose (sim_os.controller s'))).
Proof.
  repeat split; try (vm_compute; reflexivity).
  intros [A|[A|A]]; vm_compute in A; discriminate.
Qed.

(** The announced log name fails.  For demo 1 the spec has the log in
    [demo_os_1.csv]; the writer is set to [demo_os_0.csv]. *)
Lemma log_name_ignores_the_demo :
  demo_of ["sim_os"; "1"]%string = "demo_1"%string /\
  announced_log ["sim_os"; "1"]%string = "demo_os_1.csv"%string /\
  sim_os._writer os0 = "demo_os_0.csv"%string /\
  sim_os._writer os0 <> announced_log ["sim_os"; "1"]%string.
Proof. repeat split. discriminate. Qed.

(** The operation-space controller over four ticks, the second of which
    is at the goal: the latch is set from then on and the log holds the
    positions of the third and the fourth tick, nothing of the second. *)
Example log_on_gantry :
  let r := drive_os os0 empty_disk ticks in
  map (fun tk => os_hit goal (fst tk)) ticks = [false; true; false; false] /\
  TaskDynamics.external (sim_os._ds (fst r)) = true /\
  snd r "demo_os_0.csv"%string = [[dbl 3 1; 0; 0]; [dbl 2 1; 0; 0]] /\
  snd r "demo_os_1.csv"%string = [].
Proof. repeat split; vm_compute; reflexivity. Qed.

(** The latch over a run of the model-based loop that passes by the target
    in its second pass: clear, set, and still set once the target is left. *)
Lemma external_latch_one_way_witness :
  let s0 := id_modelbased.Loop_new 0%Z by_target (id_modelbased.IKController_new rest rest target) in
  let passes := snd (id_modelbased.run [dbl 6 1; 0; 0] still_clock 3 0 s0) in
  map mb_latched passes = [false; true; true] /\
  mb_latched (nth 2 passes s0) = existsb (mb_hit [dbl 6 1; 0; 0]) (firstn 3 passes).
Proof.
  intros s0 passes. split; [vm_compute; reflexivity|].
  destruct external_latch_one_way as (_ & (_ & L) & _).
  destruct (L rest rest target [dbl 6 1; 0; 0] still_clock 0%Z by_target 3%nat) as (_ & Lp & _).
  apply Lp. vm_compute. reflexivity.
Defined.

(** The model-based controller on the gantry returns the torque block of
    the solution. *)
Lemma qp_controller_torque_witness :
  fst (id_modelbased.action (id_modelbased.IKController_new rest rest target) rest rest) = z_tau.
Proof.
  destruct qp_controller_torque as (M & _).
  destruct (M (id_modelbased.IKController_new rest rest target) rest rest) as (_ & _ & S).
  apply (S z_qdd z_tau z_s); reflexivity.
Defined.



(** A latched controller with a stiffness, a silent remote and the body at
    rest six units from the reference: the task dynamics' output is zero and
    the torque is the stiffness term alone, six along the first joint. *)
Lemma torque_at_rest_witness :
  fst (fst (@sim_os.action lib body silent os_stiff_latched rest rest empty_disk))
    = stiffness_torque os_stiff_latched rest /\
  stiffness_torque os_stiff_latched rest = [dbl 6 1; 0; 0; 0; 0; 0; 0].
Proof.
  split; [|vm_compute; reflexivity].
  apply (@torque_at_rest lib body silent os_stiff_latched rest empty_disk); reflexivity.
Defined.

(** The operation-space loop on the gantry, with the fuel of the theorem. *)
Lemma loops_terminate_witness :
  exists e s' passes,
    sim_os.run [dbl 1 1; 0; 0] still_clock (Z.to_nat 20001) 0
      (sim_os.Loop_new 0%Z to_offset os0 empty_disk) = (Some e, s', passes) /\
    left_as e (sim_os.t s') sim_os.T (sim_os.world s') (dbl 5 100) (Map3 [dbl 1 1; 0; 0]).
Proof.
  apply (proj1 loops_terminate).
  rewrite Z2Nat.id; lia.
Defined.

(** A tick away from the goal writes nothing. *)
Lemma operation_space_log_witness :
  snd (drive_os os0 empty_disk [(rest, rest)]) "demo_os_0.csv"%string = [].
Proof.
  destruct (operation_space_log goal) as (_ & _ & _ & N).
  apply (N [(rest, rest)] empty_disk "demo_os_0.csv"%string). reflexivity.
Defined.

(** The operation-space loop on a script that stays away from the offset
    for four passes and then ends: four deadlines, one millisecond apart
    from the start at 0, the first of them set by the first pass. *)
Lemma next_deadline_strictly_increasing_witness :
  let offset := [dbl 1 1; 0; 0] in
  let s0 := sim_os.Loop_new 0%Z wandering os0 empty_disk in
  let r := sim_os.run offset still_clock 10 0 s0 in
  let ds := sim_os.deadlines (snd r) in
  fst (fst r) = Some EngineStopped /\
  ds = [ms 1; ms 2; ms 3; ms 4] /\
  StronglySorted Z.lt (0%Z :: ds) /\
  exists s', sim_os.iteration offset 0%Z s0 = inr s' /\ sim_os.next s' = ms 1.
Proof.
  intros offset s0 r ds.
  destruct next_deadline_strictly_increasing as (P & S & _).
  split; [vm_compute; reflexivity|]. split; [vm_compute; reflexivity|]. split.
  - apply (P offset still_clock 10%nat 0%nat s0).
  - destruct (S offset still_clock 0%nat 0%nat s0) as (s' & E & N & _);
      try (vm_compute; reflexivity).
    exists s'. split; [exact E|exact N].
Defined.

End OnGantry.

(* ================================================================== *)
(** * Further properties of the drivers                                *)
(* ================================================================== *)

(** ** Diagonal gains *)

Lemma vadd_Zero_l u n : (length u <= n)%nat -> vadd (Zero n) u = u.
Proof.
  unfold vadd. revert n; induction u as [|x u IH]; intros [|n] Hn; simpl in *;
    try reflexivity; try lia.
  rewrite IH by lia. f_equal. ring.
Qed.

Lemma vsub_self u : vsub u u = Zero (length u).
Proof.
  unfold vsub, Zero. induction u as [|x u IH]; simpl; [reflexivity|].
  rewrite IH. replace (x - x) with 0 by ring. reflexivity.
Qed.

Lemma scale_Zero k n : scale k (Zero n) = Zero n.
Proof.
  unfold scale, Zero. induction n as [|n IH]; simpl; [reflexivity|].
  rewrite IH. replace (k * 0) with 0 by ring. reflexivity.
Qed.

Lemma dot_app a b c d :
  length a = length c -> dot (a ++ b) (c ++ d) = dot a c + dot b d.
Proof.
  unfold dot. revert c; induction a as [|x a IH]; intros [|y c] E; simpl in *;
    try discriminate.
  - ring.
  - rewrite IH by congruence. ring.
Qed.

Lemma mv_diag_from v : forall pre w1 w2,
  length w1 = pre -> length w2 = length v ->
  mv (diag_from pre v) (w1 ++ w2) = zip_with Qcmult v w2.
Proof.
  induction v as [|x v IH]; intros pre w1 [|y w2] H1 H2; simpl in *;
    try discriminate; [reflexivity|].
  f_equal.
  - rewrite dot_app by (rewrite length_Zero; congruence).
    rewrite dot_Zero_l. unfold dot. simpl.
    fold (dot (Zero (length v)) w2). rewrite dot_Zero_l. ring.
  - replace (w1 ++ y :: w2) with ((w1 ++ [y]) ++ w2) by (rewrite <- app_assoc; reflexivity).
    apply IH; [rewrite length_app; simpl; lia|congruence].
Qed.

(** A diagonal matrix acts entry by entry. *)
Lemma mv_diagonal v w :
  length w = length v -> mv (diagonal v) w = zip_with Qcmult v w.
Proof. intros E. apply (mv_diag_from v 0%nat [] w); [reflexivity|exact E]. Qed.

Lemma mscale_diag_from k v : forall pre,
  mscale k (diag_from pre v) = diag_from pre (scale k v).
Proof.
  unfold mscale. induction v as [|x v IH]; intros pre; simpl; [reflexivity|].
  rewrite IH. f_equal. unfold scale at 1. rewrite map_app. simpl.
  fold (scale k (Zero pre)). fold (scale k (Zero (length v))).
  rewrite !scale_Zero. unfold scale. rewrite length_map. reflexivity.
Qed.

(** [k * Identity(n, n)] scales a vector of [n] entries. *)
Lemma mv_scaled_Identity k n w :
  length w = n -> mv (mscale k (Identity n)) w = scale k w.
Proof.
  intros E. unfold Identity, diagonal. rewrite mscale_diag_from, (mv_diag_from _ 0%nat [] w).
  - subst n. unfold scale. induction w as [|y w IH]; simpl; [reflexivity|].
    rewrite IH. f_equal. ring.
  - reflexivity.
  - unfold scale. rewrite length_map, repeat_length. exact E.
Qed.

(** ** The task dynamics before and after the latch *)

Section TaskDynamicsLaws.
Context `{ControlLib} `{Libm} `{Requester}.

Lemma local_update_keeps d x :
  TaskDynamics._external d = false -> shaped d ->
  keeps d (sim_os.update d x) /\ keeps d (id_modelbased.update d x) /\
  keeps d (id_modelfree.update d x).
Proof.
  intros E (Hu & Hk & Hc).
  unfold keeps, shaped, sim_os.update, id_modelbased.update, id_modelfree.update.
  rewrite E. cbn -[head tail_setZero set_head controllers.law].
  rewrite !length_written by (try apply length_law_R; assumption). auto 20.
Qed.

Lemma local_updates_keep upd :
  (forall d x, TaskDynamics._external d = false -> shaped d -> keeps d (upd d x)) ->
  forall xs d, TaskDynamics._external d = false -> shaped d -> keeps d (updated upd d xs).
Proof.
  intros Hupd. induction xs as [|x xs IH]; intros d E S; cbn [updated fold_left].
  - repeat split; try apply S; assumption.
  - destruct (Hupd d x E S) as (E1 & S1 & K1 & C1 & R1).
    destruct (IH (upd d x) E1 S1) as (E2 & S2 & K2 & C2 & R2).
    unfold updated in *. repeat split; try apply S2; congruence.
Qed.

(** Before the latch the operation-space task dynamics commands the linear
    velocity [5 (x*.t - x.t)] and no angular velocity, at every update since
    the constructor, when a feedback block starts without damping. *)
Theorem os_local_dynamics :
  forall (ref : SE.t) (xs : list SE.t) (x : SE.t),
    unset_gain 3 = MZero 3 3 ->
    length (SE._trans ref) = 3%nat -> length (SE._trans x) = 3%nat ->
    let d := updated sim_os.update (sim_os.setReference ref sim_os.TaskDynamics_new) xs in
    TaskDynamics.output (sim_os.update d x)
      = scale (dbl 5 1) (vsub (SE._trans ref) (SE._trans x)) ++ Zero 3.
Proof.
  intros ref xs x Hg Hr Hx d.
  assert (S0 : shaped (sim_os.setReference ref sim_os.TaskDynamics_new)).
  { repeat split; try reflexivity. cbn. rewrite Hg. reflexivity. }
  destruct (local_updates_keep sim_os.update
              (fun d x E S => proj1 (local_update_keeps d x E S)) xs
              (sim_os.setReference ref sim_os.TaskDynamics_new) eq_refl S0)
    as (E & (Hu & _ & _) & K & C & R). fold d in E, Hu, K, C, R.
  unfold sim_os.update, TaskDynamics.output. rewrite E.
  cbn -[head tail_setZero set_head controllers.law].
  unfold controllers.law. rewrite K, C, R.
  cbn -[head tail_setZero set_head mv vadd vsub mscale Identity Zero].
  rewrite Hg, mv_MZero, mv_scaled_Identity
    by (unfold vsub; rewrite length_zip_with, Hr, Hx; reflexivity).
  rewrite vadd_Zero_r
    by (unfold scale, vsub; rewrite length_map, length_zip_with, Hr, Hx; simpl; lia).
  assert (L : length (scale (dbl 5 1) (vsub (SE._trans ref) (SE._trans x))) = 3%nat)
    by (unfold scale, vsub; rewrite length_map, length_zip_with, Hr, Hx; reflexivity).
  set (lin := scale _ _) in *. set (u := TaskDynamics._u d) in *.
  clearbody lin u. open_list lin. open_list u. reflexivity.
Qed.

(** Before the latch the model-based task dynamics is switched off: its
    position feedback has stiffness 0 and damping [2 sqrt 0], so the output
    handed to the QP is the zero 6-vector whatever the pose and the target,
    at every update since the constructor. *)
Theorem model_based_local_dynamics_zero :
  forall (ref : SE.t) (xs : list SE.t) (x : SE.t),
    sqrt (dbl 0 1) = 0 ->
    let d := updated id_modelbased.update
               (id_modelbased.setReference ref id_modelbased.TaskDynamics_new) xs in
    TaskDynamics.output (id_modelbased.update d x) = Zero 6.
Proof.
  intros ref xs x Hs d.
  assert (S0 : shaped (id_modelbased.setReference ref id_modelbased.TaskDynamics_new))
    by (repeat split; reflexivity).
  destruct (local_updates_keep id_modelbased.update
              (fun d x E S => proj1 (proj2 (local_update_keeps d x E S))) xs
              (id_modelbased.setReference ref id_modelbased.TaskDynamics_new) eq_refl S0)
    as (E & (Hu & _ & _) & K & C & R). fold d in E, Hu, K, C, R.
  unfold id_modelbased.update, TaskDynamics.output. rewrite E.
  cbn -[head tail_setZero set_head controllers.law].
  unfold controllers.law. rewrite K, C.
  cbn -[head tail_setZero set_head mv vadd vsub mscale Identity Zero sqrt Qcmult].
  rewrite Hs.
  change (mscale (dbl 0 1) (Identity 3)) with (MZero 3 3).
  change (mscale (dbl 2 1 * 0) (Identity 3)) with (MZero 3 3).
  rewrite !mv_MZero.
  set (u := TaskDynamics._u d) in *. clearbody u. open_list u. reflexivity.
Qed.

(** Once the flag is set, an update gives the same output whatever
    reference was set before it. *)
Lemma latched_update_reference :
  forall (d : TaskDynamics.t) (r x : SE.t),
    TaskDynamics._external d = true ->
    TaskDynamics.output (sim_os.update (sim_os.setReference r d) x)
      = TaskDynamics.output (sim_os.update d x) /\
    TaskDynamics.output (id_modelbased.update (id_modelbased.setReference r d) x)
      = TaskDynamics.output (id_modelbased.update d x) /\
    TaskDynamics.output (id_modelfree.update (id_modelfree.setReference r d) x)
      = TaskDynamics.output (id_modelfree.update d x).
Proof.
  intros d r x E.
  unfold sim_os.update, id_modelbased.update, id_modelfree.update,
    sim_os.setReference, id_modelbased.setReference, id_modelfree.setReference.
  cbn [TaskDynamics._external TaskDynamics._u]. rewrite E. repeat split.
Qed.

End TaskDynamicsLaws.

(** ** The controllers with the gains of their constructors *)

Section ControllerLaws.
Context `{ControlLib} `{Libm} `{MultiBody} `{Requester} `{QuadraticControl}.

(** With the stiffness never set (a zero matrix) and the damping of the
    constructor, the operation-space controller tracks a velocity: its
    torque is [J^T (D (u - J dq))], entry by entry on the diagonal
    (20, 20, 20, 1, 1, 1), where [u] is the task-dynamics output of the call,
    left in the reference twist.  The pose error does not enter. *)
Theorem operation_space_tracks_velocity :
  forall (c : sim_os.OperationSpaceController) (q dq : Vec) (disk : Disk),
    controllers._k (sim_os._ctr c) = MZero 6 6 ->
    controllers._c (sim_os._ctr c) = diagonal os_damping ->
    length (jacobian q) = 6%nat ->
    let r := sim_os.action c q dq disk in
    let u := SE._v (sim_os._ref_pose (snd (fst r))) in
    length u = 6%nat ->
    fst (fst r)
      = mv (transpose 7 (jacobian q)) (zip_with Qcmult os_damping (vsub u (mv (jacobian q) dq))).
Proof.
  intros c q dq disk HK HD HJ r u Hu. unfold u, r in Hu |- *. clear u r.
  unfold sim_os.action, sim_os.call, controllers.call, controllers.update in *.
  cbn -[sim_os.update within mv transpose vadd vsub zip_with MZero diagonal os_damping] in *.
  unfold controllers.law.
  cbn [minus tangent SE_Space SE._v SE._trans SE._rot SE.set_v controllers._k controllers._c
       controllers.setReference].
  rewrite HK, HD, mv_MZero.
  set (u := TaskDynamics.output _) in *.
  assert (L : length (vsub u (mv (jacobian q) dq)) = 6%nat)
    by (unfold vsub; rewrite length_zip_with, length_mv, Hu, HJ; reflexivity).
  rewrite mv_diagonal by (rewrite L; reflexivity).
  rewrite vadd_Zero_l; [reflexivity|].
  rewrite length_zip_with, L. simpl. lia.
Qed.

(** The model-free joint controller with the gains of its constructor: each
    joint gets its own spring and damper, [K_i (q*_i - q_i) - D_i dq_i], plus
    gravity; and a body at rest with zero commanded acceleration gets the
    gravity vector and nothing else. *)
Theorem model_free_joint_torque :
  forall (c : id_modelfree.IDController) (q dq qdd s : Vec),
    controllers._k (id_modelfree._ctr c) = diagonal mf_stiffness ->
    controllers._c (id_modelfree._ctr c) = diagonal mf_damping ->
    length q = 7%nat -> length dq = 7%nat -> length qdd = 7%nat ->
    let pose := SE.set_v (framePose q) (frameVelocity q dq) in
    let task := id_modelfree.update (id_modelfree._task c) pose in
    solve (id_modelfree.problem (R.Build q dq) task) = qdd ++ s ->
    let dt := id_modelfree._dt c in
    let q_star := vadd (vadd q (scale dt dq)) (scale (dbl 1 2 * dt * dt) qdd) in
    let tau := fst (id_modelfree.action c q dq) in
    tau = vadd (vadd (zip_with Qcmult mf_stiffness (vsub q_star q))
                     (zip_with Qcmult mf_damping (vsub (Zero 7) dq)))
               (gravityVector q) /\
    (dq = Zero 7 -> qdd = Zero 7 -> length (gravityVector q) = 7%nat ->
     tau = gravityVector q).
Proof.
  intros c q dq qdd s HK HD Hq Hdq Hqdd pose task Hz dt q_star tau.
  assert (E : tau = vadd (vadd (mv (diagonal mf_stiffness) (vsub q_star q))
                               (mv (diagonal mf_damping) (vsub (Zero 7) dq)))
                         (gravityVector q)).
  { unfold tau, id_modelfree.action, controllers.call, controllers.update, controllers.law.
    cbn -[mv vadd vsub scale segment Zero Qcmult diagonal].
    assert (Hsol : solve (id_modelfree.problem (R.set_v (R.of_coords 7 q) dq)
                            (id_modelfree.update (id_modelfree._task c)
                               (SE.set_v (framePose q) (frameVelocity q dq))))
                   = qdd ++ s) by exact Hz.
    rewrite Hsol, HK, HD.
    replace (segment 0 7 (qdd ++ s)) with qdd
      by (rewrite <- Hqdd; symmetry; apply segment_front).
    reflexivity. }
  assert (Lq : length q_star = 7%nat).
  { unfold q_star, vadd, scale. rewrite !length_zip_with, !length_map, Hq, Hdq, Hqdd.
    reflexivity. }
  split.
  - rewrite E, !mv_diagonal; [reflexivity| |].
    + unfold vsub. rewrite length_zip_with, length_Zero, Hdq. reflexivity.
    + unfold vsub. rewrite length_zip_with, Lq, Hq. reflexivity.
  - intros Zdq Zqdd Hg. rewrite E. unfold q_star. rewrite Zdq, Zqdd.
    rewrite !scale_Zero. rewrite (vadd_Zero_r q 7) by lia. rewrite (vadd_Zero_r q 7) by lia.
    rewrite !vsub_self, Hq, length_Zero, !mv_Zero_r.
    change (length (diagonal mf_stiffness)) with 7%nat.
    change (length (diagonal mf_damping)) with 7%nat.
    rewrite (vadd_Zero_r (Zero 7)) by (rewrite length_Zero; lia).
    apply vadd_Zero_l. lia.
Qed.

(** Once the latch is set, the reference of the task dynamics has no say.
    In the three drivers a latched update gives the same output whatever
    reference [setReference] installed before it; so in the two QP drivers a
    call of [setTarget] does not change the torque of the next call. *)
Theorem latch_makes_reference_idle :
  (forall (d : TaskDynamics.t) (r x : SE.t),
     TaskDynamics._external d = true ->
     TaskDynamics.output (sim_os.update (sim_os.setReference r d) x)
       = TaskDynamics.output (sim_os.update d x) /\
     TaskDynamics.output (id_modelbased.update (id_modelbased.setReference r d) x)
       = TaskDynamics.output (id_modelbased.update d x) /\
     TaskDynamics.output (id_modelfree.update (id_modelfree.setReference r d) x)
       = TaskDynamics.output (id_modelfree.update d x)) /\
  (forall (c : id_modelbased.IKController) target q dq,
     TaskDynamics.external (id_modelbased._task c) = true ->
     fst (id_modelbased.action (id_modelbased.setTarget target c) q dq)
       = fst (id_modelbased.action c q dq)) /\
  (forall (c : id_modelfree.IDController) target q dq,
     TaskDynamics.external (id_modelfree._task c) = true ->
     fst (id_modelfree.action (id_modelfree.setTarget target c) q dq)
       = fst (id_modelfree.action c q dq)).
Proof.
  split; [exact latched_update_reference|]. split; intros c target q dq E.
  - unfold id_modelbased.action, id_modelbased.setTarget, id_modelbased.problem,
      TaskDynamics.external in *.
    cbn -[id_modelbased.update id_modelbased.setReference solve segment TaskDynamics.output].
    destruct (latched_update_reference (id_modelbased._task c) target
                (SE.set_v (framePose q) (frameVelocity q dq)) E) as (_ & -> & _).
    reflexivity.
  - unfold id_modelfree.action, id_modelfree.setTarget, id_modelfree.problem,
      controllers.call, TaskDynamics.external in *.
    cbn -[id_modelfree.update id_modelfree.setReference solve segment TaskDynamics.output
          controllers.law vadd scale Qcmult].
    destruct (latched_update_reference (id_modelfree._task c) target
                (SE.set_v (framePose q) (frameVelocity q dq)) E) as (_ & _ & ->).
    reflexivity.
Qed.

End ControllerLaws.

(** ** The operation-space controller and its log over a whole run *)

Section OperationSpaceInvariants.
Context `{ControlLib} `{MultiBody} `{Requester} `{Simulator}.

(** What one call of [action] keeps besides the facts of
    [action_os_effect]: the gains and the reference of the position
    feedback, and the reference twist it leaves. *)
Lemma action_os_keeps c q dq disk :
  let c' := snd (fst (sim_os.action c q dq disk)) in
  controllers._k (TaskDynamics._pos (sim_os._ds c'))
    = controllers._k (TaskDynamics._pos (sim_os._ds c)) /\
  controllers._c (TaskDynamics._pos (sim_os._ds c'))
    = controllers._c (TaskDynamics._pos (sim_os._ds c)) /\
  controllers._xr (TaskDynamics._pos (sim_os._ds c'))
    = controllers._xr (TaskDynamics._pos (sim_os._ds c)) /\
  SE._v (sim_os._ref_pose c') = TaskDynamics.output (sim_os._ds c') /\
  controllers._xr (sim_os._ctr c') = sim_os._ref_pose c'.
Proof.
  unfold sim_os.action, sim_os.call, controllers.call, sim_os.update.
  destruct (within _ _ _ && _); destruct (TaskDynamics.external (sim_os._ds c)) eqn:E;
    unfold TaskDynamics.external in E; cbn -[within]; rewrite ?E; cbn; repeat split.
Qed.

(** Over any sequence of ticks the operation-space controller keeps the
    rotation and the translation of its reference, its log file, the gains
    of its feedback and the gains and reference of its local dynamics; what
    changes is the latch, which only ever gets set, and the reference twist,
    which after a tick is the task-dynamics output of that tick. *)
Theorem operation_space_controller_keeps :
  forall (c : sim_os.OperationSpaceController) (disk : Disk) (ticks : list (Vec * Vec)),
    let c' := fst (drive_os c disk ticks) in
    (SE._rot (sim_os._ref_pose c') = SE._rot (sim_os._ref_pose c) /\
     SE._trans (sim_os._ref_pose c') = SE._trans (sim_os._ref_pose c) /\
     sim_os._writer c' = sim_os._writer c) /\
    (controllers._k (sim_os._ctr c') = controllers._k (sim_os._ctr c) /\
     controllers._c (sim_os._ctr c') = controllers._c (sim_os._ctr c)) /\
    (controllers._k (TaskDynamics._pos (sim_os._ds c'))
       = controllers._k (TaskDynamics._pos (sim_os._ds c)) /\
     controllers._c (TaskDynamics._pos (sim_os._ds c'))
       = controllers._c (TaskDynamics._pos (sim_os._ds c)) /\
     controllers._xr (TaskDynamics._pos (sim_os._ds c'))
       = controllers._xr (TaskDynamics._pos (sim_os._ds c))) /\
    (TaskDynamics.external (sim_os._ds c) = true ->
     TaskDynamics.external (sim_os._ds c') = true) /\
    (ticks <> [] ->
     SE._v (sim_os._ref_pose c') = TaskDynamics.output (sim_os._ds c') /\
     controllers._xr (sim_os._ctr c') = sim_os._ref_pose c').
Proof.
  intros c disk ticks. revert c disk.
  induction ticks as [|[q dq] ticks IH]; intros c disk; cbn [drive_os fst].
  - repeat split; auto; congruence.
  - pose proof (action_os_effect c q dq disk) as A.
    pose proof (action_os_keeps c q dq disk) as B.
    destruct (sim_os.action c q dq disk) as [[tau c1] disk1]. cbn [fst snd] in B.
    destruct A as (At & Ar & Ax & Aw & Ak & Ac & _).
    destruct B as (Bk & Bc & Br & Bv & Bx).
    specialize (IH c1 disk1). cbn zeta in IH.
    destruct IH as ((I1 & I2 & I3) & (I4 & I5) & (I6 & I7 & I8) & I9 & I10).
    repeat split; try congruence.
    + intros E. apply I9. rewrite Ax, E. reflexivity.
    + destruct ticks as [|tk ticks]; [exact Bv|apply I10; discriminate].
    + destruct ticks as [|tk ticks]; [exact Bx|apply I10; discriminate].
Qed.

Lemma log_grown_refl c d : log_grown c d c d.
Proof.
  repeat split; auto. intros path. exists []. rewrite app_nil_r. auto.
Qed.

Lemma log_grown_trans c d c1 d1 c2 d2 :
  log_grown c d c1 d1 -> log_grown c1 d1 c2 d2 -> log_grown c d c2 d2.
Proof.
  intros (W1 & X1 & R1) (W2 & X2 & R2). repeat split; [congruence|auto|].
  intros path. destruct (R1 path) as (r1 & E1 & P1 & L1).
  destruct (R2 path) as (r2 & E2 & P2 & L2).
  exists (r1 ++ r2). rewrite E2, E1, app_assoc. split; [reflexivity|]. split.
  - intros N. rewrite P1, P2 by congruence. reflexivity.
  - intros L. rewrite L2 by exact L. rewrite L1; [reflexivity|].
    destruct (TaskDynamics.external (sim_os._ds c1)) eqn:E; [|reflexivity].
    rewrite X2 in L by reflexivity. discriminate.
Qed.

Lemma action_log_grown c q dq disk :
  log_grown c disk (snd (fst (sim_os.action c q dq disk))) (snd (sim_os.action c q dq disk)).
Proof.
  pose proof (action_os_effect c q dq disk) as A.
  destruct (sim_os.action c q dq disk) as [[tau c1] disk1]. cbn [fst snd].
  destruct A as (_ & _ & Ax & Aw & _ & _ & Ad). repeat split; [exact Aw| |].
  - intros E. rewrite Ax, E. reflexivity.
  - intros path. subst disk1. unfold FileManager.append.
    destruct (TaskDynamics.external (sim_os._ds c)) eqn:E.
    + destruct (String.eqb path (sim_os._writer c)) eqn:P.
      * eexists. split; [reflexivity|]. split.
        -- intros N. apply String.eqb_eq in P. contradiction.
        -- rewrite Ax. discriminate.
      * exists []. rewrite app_nil_r. auto.
    + exists []. rewrite app_nil_r. auto.
Qed.

Lemma iteration_log_grown offset now s :
  let s1 := after (sim_os.iteration offset now s) in
  log_grown (sim_os.controller s) (sim_os.disk s) (sim_os.controller s1) (sim_os.disk s1).
Proof.
  unfold sim_os.iteration, step, sim_os.act.
  pose proof (action_log_grown (sim_os.controller s) (state (sim_os.world s))
                (velocity (sim_os.world s)) (sim_os.disk s)) as G.
  cbn [fst snd]. destruct (sim_os.action _ _ _ _) as [[tau c1] d1]. cbn [fst snd] in G.
  cbn -[within Qcplus]. destruct (proceed _); cbn -[within Qcplus];
    [destruct (within _ _ _)|]; exact G.
Qed.

(** Over a whole run of the operation-space loop the log has only grown:
    the controller writes to the file it was set to and to no other, every
    file keeps the rows it had, in order, in front of what was added, a set
    latch stays set, and a run that ends with the latch clear has written
    nothing. *)
Theorem operation_space_run_log :
  forall offset clock fuel k (s : sim_os.Loop),
    let s' := snd (fst (sim_os.run offset clock fuel k s)) in
    log_grown (sim_os.controller s) (sim_os.disk s) (sim_os.controller s') (sim_os.disk s').
Proof.
  intros offset clock fuel. induction fuel as [|fuel IH]; intros k s; cbn [sim_os.run];
    (destruct (Qle_bool (sim_os.t s) sim_os.T); [|apply log_grown_refl]).
  - apply log_grown_refl.
  - pose proof (iteration_log_grown offset (clock k) s) as G.
    destruct (sim_os.iteration offset (clock k) s) as [[e s1]|s1]; cbn [after] in G.
    + exact G.
    + specialize (IH (S k) s1).
      destruct (sim_os.run offset clock fuel (S k) s1) as [[e s2] passes].
      cbn [fst snd] in *. eapply log_grown_trans; eassumption.
Qed.

End OperationSpaceInvariants.

(** ** Start-up: what [main] needs on disk and what it shows *)

Section StartUp.
Context `{FileSystem}.

(** The trajectories loop succeeds exactly on readable files and shows each
    file shifted, in order, in the colour of its number. *)
Lemma load_trajectories_some colour demo offset count : forall first shown,
  load_trajectories colour demo offset first count = Some shown ->
  exists ms,
    length ms = count /\
    (forall i, (i < count)%nat ->
       read (trajectory_path demo (first + i)) = Some (nth i ms [])) /\
    shown = map (fun i => (rowwise_add (nth i ms []) (Map3 offset), colour (first + i)%nat))
              (seq 0 count).
Proof.
  induction count as [|count IH]; intros first shown; cbn [load_trajectories].
  - intros E. injection E as <-. exists []. repeat split. intros i Hi. lia.
  - fold (trajectory_path demo first).
    destruct (read (trajectory_path demo first)) as [m|] eqn:R; cbn [bind]; [|discriminate].
    destruct (load_trajectories colour demo offset (S first) count) as [rest|] eqn:E;
      cbn [bind]; [|discriminate].
    intros S. injection S as <-. destruct (IH (S first) rest E) as (ms & L & Rd & Sh).
    exists (m :: ms). split; [simpl; congruence|]. split.
    + intros [|i] Hi; [rewrite Nat.add_0_r; exact R|].
      rewrite <- Nat.add_succ_comm. apply Rd. lia.
    + cbn [seq map nth]. rewrite Nat.add_0_r. f_equal.
      rewrite Sh, <- seq_shift, map_map. apply map_ext. intros i.
      rewrite <- Nat.add_succ_comm. reflexivity.
Qed.

Lemma load_trajectories_none colour demo offset count : forall first i,
  (i < count)%nat -> read (trajectory_path demo (first + i)) = None ->
  load_trajectories colour demo offset first count = None.
Proof.
  induction count as [|count IH]; intros first i Hi R; [lia|].
  cbn [load_trajectories]. fold (trajectory_path demo first).
  destruct i as [|i].
  - rewrite Nat.add_0_r in R. rewrite R. reflexivity.
  - destruct (read (trajectory_path demo first)); cbn [bind]; [|reflexivity].
    rewrite (IH (S first) i); [reflexivity|lia|].
    rewrite Nat.add_succ_comm. exact R.
Qed.

(** The start-up of the operation-space driver.  When it succeeds, the
    demo's YAML file was loaded and held a sequence of numbers under the
    top-level key [offset], the seven files [trajectory_1.csv] ..
    [trajectory_7.csv] of the demo directory were read, and what is shown is
    those seven matrices, in order, each row shifted by the first three
    entries of the offset, the first three in blue and the last four in
    red.  It fails when the YAML file cannot be loaded, when the key is
    missing or not a sequence of numbers, and when any one of the seven
    files cannot be read. *)
Theorem operation_space_start_up :
  forall (argv : list string),
    let demo := demo_of argv in
    (forall offset shown,
       sim_os.load argv = Some (offset, shown) ->
       exists config ms,
         LoadFile (params_path demo) = Some config /\
         YAML.as_vector (YAML.get config "offset") = Some offset /\
         length ms = 7%nat /\
         (forall i, (i < 7)%nat -> read (trajectory_path demo (S i)) = Some (nth i ms [])) /\
         map fst shown = map (fun m => rowwise_add m (Map3 offset)) ms /\
         map snd shown = ["blue"; "blue"; "blue"; "red"; "red"; "red"; "red"]%string) /\
    (LoadFile (params_path demo) = None -> sim_os.load argv = None) /\
    (forall config,
       LoadFile (params_path demo) = Some config ->
       YAML.as_vector (YAML.get config "offset") = None -> sim_os.load argv = None) /\
    (forall i, (i < 7)%nat ->
       read (trajectory_path demo (S i)) = None -> sim_os.load argv = None).
Proof.
  intros argv demo. unfold sim_os.load. fold demo. fold (params_path demo).
  repeat split.
  - intros offset shown.
    destruct (LoadFile (params_path demo)) as [config|]; cbn [bind]; [|discriminate].
    destruct (YAML.as_vector (YAML.get config "offset")) as [off|] eqn:V;
      cbn [bind]; [|discriminate].
    destruct (load_trajectories _ demo off 1 7) as [sh|] eqn:L; cbn [bind]; [|discriminate].
    intros E. injection E as <- <-.
    apply load_trajectories_some in L as (ms & Lm & Rd & Sh).
    exists config, ms. split; [reflexivity|]. split; [exact V|]. split; [exact Lm|].
    split; [intros i Hi; apply (Rd i Hi)|].
    subst sh. clear Rd V. open_list ms. split; reflexivity.
  - intros ->. reflexivity.
  - intros config E1 E2. rewrite E1. cbn [bind]. rewrite E2. reflexivity.
  - intros i Hi R.
    destruct (LoadFile (params_path demo)) as [config|]; cbn [bind]; [|reflexivity].
    destruct (YAML.as_vector (YAML.get config "offset")) as [off|]; cbn [bind]; [|reflexivity].
    rewrite (load_trajectories_none _ demo off 7 1 i Hi R). reflexivity.
Qed.


End StartUp.

(** ** The target and the starting configuration *)

Section Targets.
Context `{ControlLib} `{MultiBody} `{FileSystem}.

(** The task-space target of the three drivers is the first row of the
    demo's first trajectory file plus the first three entries of the offset;
    the operation-space driver pairs it with the fixed rotation, the QP
    drivers also use it as the point of the loop's latch test and give the
    target a zero twist. *)
Theorem task_target_is_first_row :
  forall (argv : list string) offset shown (row0 : Vec) (rest : Mat),
    read (trajectory_path (demo_of argv) 1) = Some (row0 :: rest) ->
    (sim_os.load argv = Some (offset, shown) ->
     SE._trans (sim_os.ref_pose shown) = vadd row0 (Map3 offset) /\
     SE._rot (sim_os.ref_pose shown) = sim_os.ref_rot) /\
    (id_modelbased.load argv = Some (offset, shown) ->
     SE._trans (id_modelbased.tDes shown) = vadd row0 (Map3 offset) /\
     id_modelbased.xDes shown = vadd row0 (Map3 offset) /\
     SE._v (id_modelbased.tDes shown) = Zero 6) /\
    (id_modelfree.load argv = Some (offset, shown) ->
     SE._trans (id_modelfree.tDes shown) = vadd row0 (Map3 offset) /\
     id_modelfree.xDes shown = vadd row0 (Map3 offset) /\
     SE._v (id_modelfree.tDes shown) = Zero 6).
Proof.
  intros argv offset shown row0 rest R.
  assert (Q : forall colour first_key,
             (config <- LoadFile (params_path (demo_of argv)) ;;
              off <- YAML.as_vector (first_key config) ;;
              trajectories <- load_trajectories colour (demo_of argv) off 1 1 ;;
              Some (off, trajectories)) = Some (offset, shown) ->
             nth 0 (fst (nth 0 shown ([], EmptyString))) [] = vadd row0 (Map3 offset)).
  { intros colour key.
    destruct (LoadFile _) as [config|]; cbn [bind]; [|discriminate].
    destruct (YAML.as_vector _) as [off|]; cbn [bind]; [|discriminate].
    cbn [load_trajectories]. fold (trajectory_path (demo_of argv) 1). rewrite R.
    cbn [bind]. intros E. injection E as <- <-. reflexivity. }
  split; [|split].
  - unfold sim_os.load. fold (params_path (demo_of argv)).
    destruct (LoadFile _) as [config|]; cbn [bind]; [|discriminate].
    destruct (YAML.as_vector _) as [off|]; cbn [bind]; [|discriminate].
    destruct (load_trajectories _ _ off 1 7) as [sh|] eqn:L; cbn [bind]; [|discriminate].
    intros E. injection E as <- <-.
    apply load_trajectories_some in L as (ms & Lm & Rd & Sh).
    specialize (Rd 0%nat ltac:(lia)). cbn [Nat.add] in Rd. rewrite R in Rd.
    injection Rd as Rd. split; [|reflexivity].
    subst sh. cbn [seq map]. unfold sim_os.ref_pose, sim_os.first_row.
    cbn [SE._trans SE.of_parts nth fst]. rewrite <- Rd. reflexivity.
  - intros E. apply Q in E. unfold id_modelbased.tDes, id_modelbased.xDes.
    cbn [SE._trans SE._v SE.set_v SE.of_parts]. auto.
  - intros E. apply Q in E. unfold id_modelfree.tDes, id_modelfree.xDes.
    cbn [SE._trans SE._v SE.set_v SE.of_parts]. auto.
Qed.

Lemma mid_between (lo up : Qc) :
  lo <= up -> lo <= dbl 1 2 * (up - lo) + lo /\ dbl 1 2 * (up - lo) + lo <= up.
Proof.
  unfold Qcle, dbl. intros Hle.
  unfold Qcminus, Qcopp, Qcplus, Qcmult. cbn [this Q2Qc].
  rewrite !Qred_correct. split; lra.
Qed.

(** The joint configuration [(upper - lower) * 0.5 + lower], which [main]
    puts the robot in and the QP controllers' configuration feedback aims
    at, lies within the joint limits, joint by joint, whenever every lower
    limit is at most its upper limit. *)
Theorem mid_range_within_limits :
  Forall2 Qcle positionLower positionUpper ->
  Forall2 Qcle positionLower id_modelbased.mid_range /\
  Forall2 Qcle id_modelbased.mid_range positionUpper /\
  id_modelfree.mid_range = id_modelbased.mid_range.
Proof.
  unfold id_modelbased.mid_range, id_modelfree.mid_range.
  generalize positionLower, positionUpper. intros lo up F.
  split; [|split; [|reflexivity]]; induction F as [|l u lo up Hlu F IH];
    cbn; constructor; try assumption; apply (mid_between l u Hlu).
Qed.

End Targets.

(* ================================================================== *)
(** * More of the drivers on the gantry                                *)
(* ================================================================== *)

Module OnGantryMore.
Import Gantry.

(** The operation-space task dynamics after one update, at a pose one unit
    along x, with the goal six units along x. *)
Lemma os_local_dynamics_witness :
  TaskDynamics.output
    (sim_os.update
       (updated sim_os.update (sim_os.setReference goal sim_os.TaskDynamics_new) [moving])
       moving)
    = scale (dbl 5 1) (vsub (SE._trans goal) (SE._trans moving)) ++ Zero 3.
Proof. apply (os_local_dynamics goal [moving] moving); reflexivity. Defined.

Lemma model_based_local_dynamics_zero_witness :
  TaskDynamics.output
    (id_modelbased.update
       (updated id_modelbased.update
          (id_modelbased.setReference target id_modelbased.TaskDynamics_new) [moving])
       moving)
    = Zero 6.
Proof. apply (model_based_local_dynamics_zero target [moving] moving); reflexivity. Defined.

Lemma operation_space_tracks_velocity_witness :
  fst (fst (sim_os.action os0 rest rest empty_disk))
    = mv (transpose 7 (jacobian rest))
        (zip_with Qcmult os_damping
           (vsub (SE._v (sim_os._ref_pose (snd (fst (sim_os.action os0 rest rest empty_disk)))))
                 (mv (jacobian rest) rest))).
Proof.
  apply (operation_space_tracks_velocity os0 rest rest empty_disk); reflexivity.
Defined.

Lemma model_free_joint_torque_witness :
  let c := id_modelfree.IDController_new rest rest target in
  let dt := id_modelfree._dt c in
  let q_star := vadd (vadd rest (scale dt rest)) (scale (dbl 1 2 * dt * dt) z_qdd) in
  fst (id_modelfree.action c rest rest)
    = vadd (vadd (zip_with Qcmult mf_stiffness (vsub q_star rest))
                 (zip_with Qcmult mf_damping (vsub (Zero 7) rest)))
           (gravityVector rest).
Proof.
  intros c dt q_star.
  refine (proj1 (model_free_joint_torque c rest rest z_qdd z_s _ _ _ _ _ _));
    vm_compute; reflexivity.
Defined.

Lemma latch_makes_reference_idle_witness :
  let c := id_modelbased.setExternalDynamics true
             (id_modelbased.IKController_new rest rest target) in
  fst (id_modelbased.action (id_modelbased.setTarget goal c) rest rest)
    = fst (id_modelbased.action c rest rest).
Proof.
  intros c. apply (proj1 (proj2 latch_makes_reference_idle)). reflexivity.
Defined.

Lemma operation_space_controller_keeps_witness :
  let c' := fst (drive_os os0 empty_disk ticks) in
  SE._v (sim_os._ref_pose c') = TaskDynamics.output (sim_os._ds c') /\
  controllers._xr (sim_os._ctr c') = sim_os._ref_pose c'.
Proof.
  intros c'.
  destruct (operation_space_controller_keeps os0 empty_disk ticks) as (_ & _ & _ & _ & N).
  apply N. discriminate.
Defined.

Lemma operation_space_start_up_witness :
  @sim_os.load files ["sim_os"%string] = None.
Proof.
  destruct (@operation_space_start_up files ["sim_os"%string]) as (_ & _ & N & _).
  apply (N demo_1_yaml); reflexivity.
Defined.


Lemma task_target_is_first_row_witness :
  SE._trans (id_modelbased.tDes
               [(rowwise_add trajectory (Map3 [dbl 1 1; 0; 0]), "green"%string)])
    = vadd [dbl 5 1; 0; 0] (Map3 [dbl 1 1; 0; 0]).
Proof.
  assert (R : read (trajectory_path (demo_of ["id_modelbased"%string]) 1)
              = Some ([dbl 5 1; 0; 0] :: [[dbl 3 1; 0; 0]; [0; 0; 0]])) by reflexivity.
  destruct (task_target_is_first_row ["id_modelbased"%string] [dbl 1 1; 0; 0]
              [(rowwise_add trajectory (Map3 [dbl 1 1; 0; 0]), "green"%string)]
              [dbl 5 1; 0; 0] [[dbl 3 1; 0; 0]; [0; 0; 0]] R) as (_ & M & _).
  apply M. reflexivity.
Defined.

Lemma mid_range_within_limits_witness :
  Forall2 Qcle positionLower id_modelbased.mid_range /\
  Forall2 Qcle id_modelbased.mid_range positionUpper.
Proof.
  destruct mid_range_within_limits as (A & B & _); [|split; assumption].
  repeat constructor; vm_compute; discriminate.
Defined.

End OnGantryMore.
